(** * mezzanine.pages.middleware.PageMiddleware

    A shallow embedding of [PageMiddleware] (src/mezzanine/pages/middleware.py)
    and the properties of [process_view] and [installed].

    Python objects are modelled by the small value universe [pyval]; calls
    that leave the module (the dispatched view, the page view, the page
    processors, [import_dotted_path]) are recorded in a call trace, so that
    "is never invoked" and "runs before" are statements about that trace.
    Exceptions are the left summand of every result. *)

From stdpp Require Import base option list strings numbers countable gmap fin_maps.

Local Open Scope Z_scope.
Set Warnings "-register-all".

(** ** Python values *)

(** Hashable values, after Python's key equality ([True == 1], [False == 0]
    are the same dictionary key). *)
Inductive pykey :=
| KNone
| KInt (n : Z)
| KStr (s : string).

#[global] Instance pykey_eq_dec : EqDecision pykey.
Proof. solve_decision. Defined.

Definition pykey_enc (k : pykey) : unit + (Z + string) :=
  match k with
  | KNone => inl tt
  | KInt n => inr (inl n)
  | KStr s => inr (inr s)
  end.

Definition pykey_dec (x : unit + (Z + string)) : pykey :=
  match x with
  | inl _ => KNone
  | inr (inl n) => KInt n
  | inr (inr s) => KStr s
  end.

#[global] Instance pykey_countable : Countable pykey.
Proof.
  refine (inj_countable' pykey_enc pykey_dec _).
  intros []; reflexivity.
Defined.

(** The values a page processor may hand back, other than a response
    object.  A [PyDict] keeps its items in insertion order, which is the
    order [for k in d] visits them. *)
Inductive pyval :=
| PyNone
| PyBool (b : bool)
| PyInt (n : Z)
| PyStr (s : string)
| PyList (l : list pyval)
| PyDict (d : list (pykey * pyval)).

(** A template context: [response.context_data] when it is a dict. *)
Abbreviation context := (gmap pykey pyval).

Inductive exn :=
| Http404 (msg : string)
| ImproperlyConfigured (msg : string)
| MiddlewareNotUsed
| ValueError (msg : string)
| TypeError
| AttributeError (attr : string)
| IndexError
| KeyError
| ImportError (name : string)
| OtherError (name : string).

(** [except (TypeError, ValueError)] *)
Definition is_type_or_value_error (e : exn) : bool :=
  match e with
  | TypeError | ValueError _ => true
  | _ => false
  end.

(** [except Http404] *)
Definition is_http404 (e : exn) : bool :=
  match e with
  | Http404 _ => true
  | _ => false
  end.

(** [bool(v)] *)
Definition truthy (v : pyval) : bool :=
  match v with
  | PyNone => false
  | PyBool b => b
  | PyInt n => negb (n =? 0)
  | PyStr s => negb (String.eqb s "")
  | PyList l => match l with [] => false | _ => true end
  | PyDict d => match d with [] => false | _ => true end
  end.

(** [hash(v)]: lists and dicts are unhashable. *)
Definition to_key (v : pyval) : option pykey :=
  match v with
  | PyNone => Some KNone
  | PyBool b => Some (KInt (if b then 1 else 0))
  | PyInt n => Some (KInt n)
  | PyStr s => Some (KStr s)
  | PyList _ | PyDict _ => None
  end.

Definition of_key (k : pykey) : pyval :=
  match k with
  | KNone => PyNone
  | KInt n => PyInt n
  | KStr s => PyStr s
  end.

(** [type(v).__name__] *)
Definition type_name (v : pyval) : string :=
  match v with
  | PyNone => "NoneType"
  | PyBool _ => "bool"
  | PyInt _ => "int"
  | PyStr _ => "str"
  | PyList _ => "list"
  | PyDict _ => "dict"
  end.

(** [str(type(v))], as Python 3 prints it. *)
Definition type_repr (v : pyval) : string :=
  "<class '" +:+ type_name v +:+ "'>".

Definition chars (s : string) : list pyval :=
  map (fun c => PyStr (String c EmptyString)) (String.list_ascii_of_string s).

(** [iter(v)]: the values [for k in v] visits, or [TypeError]. *)
Definition py_iter (v : pyval) : exn + list pyval :=
  match v with
  | PyStr s => inr (chars s)
  | PyList l => inr l
  | PyDict d => inr (map (fun kv => of_key kv.1) d)
  | PyNone | PyBool _ | PyInt _ => inl TypeError
  end.

Definition iterable (v : pyval) : bool :=
  match py_iter v with inr _ => true | inl _ => false end.

Fixpoint dict_get (d : list (pykey * pyval)) (k : pykey) : option pyval :=
  match d with
  | [] => None
  | (k', v) :: d' => if decide (k' = k) then Some v else dict_get d' k
  end.

(** Sequence index: an integer key, negative ones counted from the end. *)
Definition seq_index {A} (l : list A) (k : pykey) : exn + A :=
  match k with
  | KInt i =>
      let n := Z.of_nat (length l) in
      let j := if i <? 0 then i + n else i in
      if (0 <=? j) && (j <? n)
      then match l !! Z.to_nat j with Some x => inr x | None => inl IndexError end
      else inl IndexError
  | _ => inl TypeError
  end.

(** [v[k]] *)
Definition py_getitem (v : pyval) (k : pyval) : exn + pyval :=
  match v with
  | PyDict d =>
      match to_key k with
      | None => inl TypeError
      | Some key => match dict_get d key with Some x => inr x | None => inl KeyError end
      end
  | PyList l =>
      match k with
      | PyBool _ | PyInt _ =>
          match to_key k with
          | Some key => seq_index l key
          | None => inl TypeError
          end
      | _ => inl TypeError
      end
  | PyStr s =>
      match k with
      | PyBool _ | PyInt _ =>
          match to_key k with
          | Some key => seq_index (chars s) key
          | None => inl TypeError
          end
      | _ => inl TypeError
      end
  | PyNone | PyBool _ | PyInt _ => inl TypeError
  end.

(** ** Requests, pages, responses *)

Record User := {
  username : string;
  is_authenticated : bool;
}.

Record Page := {
  slug : string;
  login_required : bool;
  content_model : string;
  is_current : bool;
}.

Record Request := {
  path_info : string;
  get_full_path : string;
  user : User;
  page : option Page;
}.

(** [setattr(request, "page", page)] *)
Definition set_page (request : Request) (p : Page) : Request :=
  {| path_info := path_info request;
     get_full_path := get_full_path request;
     user := user request;
     page := Some p |}.

(** Everything [isinstance(_, HttpResponse)] accepts.  Only a template
    response has a [context_data] attribute, and it is [None] when the view
    rendered the template without a context. *)
Inductive HttpResponse :=
| PlainResponse (status : Z) (content : string)
| RedirectResponse (url : string)
| TemplateResponse (template : string) (context_data : option context).

(** [django.shortcuts.redirect] *)
Definition redirect (url : string) : HttpResponse := RedirectResponse url.

(** [response.context_data] *)
Definition get_context_data (response : HttpResponse) : exn + option context :=
  match response with
  | TemplateResponse _ c => inr c
  | _ => inl (AttributeError "context_data")
  end.

(** [response.context_data[k] = x], on a response whose context is [c] *)
Definition set_context_item (response : HttpResponse) (c : context)
    (k : pykey) (x : pyval) : HttpResponse :=
  match response with
  | TemplateResponse t _ => TemplateResponse t (Some (<[k := x]> c))
  | r => r
  end.

(** What [processor(request, page)] evaluates to. *)
Inductive processor_result :=
| RResponse (r : HttpResponse)
| RValue (v : pyval).

Record Processor := {
  proc_module : string;
  proc_name : string;
  proc_call : Request -> Page -> exn + processor_result;
}.

Definition view_args := list pyval.
Definition view_kwargs := list (string * pyval).
Definition callable := Request -> view_args -> view_kwargs -> exn + HttpResponse.

(** The view the URL resolver dispatched to: the page view itself, or any
    other function.  [view_func != page_view] compares identities. *)
Inductive view :=
| PageView
| OtherView (name : string) (body : callable).

Definition is_page_view (v : view) : bool :=
  match v with PageView => true | OtherView _ _ => false end.

Record Settings := {
  INSTALLED_APPS : list string;
  MIDDLEWARE_CLASSES : list string;
  TEMPLATE_CONTEXT_PROCESSORS : list string;
  LOGIN_URL : string;
}.

(** The names the module imports from Django and from the rest of
    Mezzanine; their code is outside this file, so they are parameters. *)
Record World := {
  settings : Settings;
  REDIRECT_FIELD_NAME : string;
  urlquote : string -> string;
  path_to_slug : string -> string;
  with_ascendants_for_slug : string -> User -> list Page;
  page_view : callable;
  processors : string -> list (Processor * bool);
}.

(** ** Calls and exceptions *)

Inductive event :=
| EvPathToSlug (path : string)
| EvPageLookup (slug : string)
| EvSetPage (p : Page)
| EvView
| EvPageView (slug : string)
| EvProcessor (module name : string)
| EvImport (dotted_path : string).

(** A computation: the calls it made, and an exception or a value. *)
Definition M (A : Type) : Type := list event * (exn + A).

#[global] Instance M_ret : MRet M := fun A a => ([], inr a).

#[global] Instance M_bind : MBind M := fun A B f m =>
  match m with
  | (t, inl e) => (t, inl e)
  | (t, inr a) => let '(t', r) := f a in (t ++ t', r)
  end.

Definition raise {A} (e : exn) : M A := ([], inl e).

Definition call {A} (ev : event) (r : exn + A) : M A := ([ev], r).

(** [try: m  except: h] where [h] re-raises what it does not handle. *)
Definition try_except {A} (m : M A) (h : exn -> M A) : M A :=
  match m with
  | (t, inl e) => let '(t', r) := h e in (t ++ t', r)
  | (t, inr a) => (t, inr a)
  end.

Definition trace {A} (m : M A) : list event := m.1.
Definition outcome {A} (m : M A) : exn + A := m.2.

(** ** [PageMiddleware.process_view] *)

(** The body of the [try] of the processor loop:
[[
    for k in processor_response:
        if k not in response.context_data:
            response.context_data[k] = processor_response[k]
]]
    over the values [ks] still to visit. *)
Fixpoint merge_keys (processor_response : pyval) (ks : list pyval)
    (response : HttpResponse) : exn + HttpResponse :=
  match ks with
  | [] => inr response
  | k :: ks' =>
      match get_context_data response with
      | inl e => inl e
      | inr None => inl TypeError
      | inr (Some c) =>
          match to_key k with
          | None => inl TypeError
          | Some key =>
              match c !! key with
              | Some _ => merge_keys processor_response ks' response
              | None =>
                  match py_getitem processor_response k with
                  | inl e => inl e
                  | inr x =>
                      merge_keys processor_response ks'
                        (set_context_item response c key x)
                  end
              end
          end
      end
  end.

Definition merge_context (processor_response : pyval)
    (response : HttpResponse) : exn + HttpResponse :=
  match py_iter processor_response with
  | inl e => inl e
  | inr ks => merge_keys processor_response ks response
  end.

(** ["%s.%s" % (processor.__module__, processor.__name__)] *)
Definition processor_name (processor : Processor) : string :=
  proc_module processor +:+ "." +:+ proc_name processor.

Definition processor_error (processor : Processor) (processor_response : pyval) : string :=
  "The page processor " +:+ processor_name processor +:+ " returned " +:+
  type_repr processor_response +:+ " but must return HttpResponse or dict.".

(** [exact_page and not page.is_current] *)
Definition skipped (p : Page) (exact_page : bool) : bool :=
  exact_page && negb (is_current p).

(** How the processor loop ends: [return processor_response] from inside
    it, or falling out of it with the response as the merges left it. *)
Inductive loop_exit :=
| Returned (processor_response : HttpResponse)
| Completed (response : HttpResponse).

Definition proc_event (processor : Processor) : event :=
  EvProcessor (proc_module processor) (proc_name processor).

(** The [for (processor, exact_page) in ...] loop. *)
Fixpoint run_processors (request : Request) (p : Page)
    (ps : list (Processor * bool)) (response : HttpResponse) : M loop_exit :=
  match ps with
  | [] => mret (Completed response)
  | (processor, exact_page) :: rest =>
      if skipped p exact_page then run_processors request p rest response
      else
        processor_response ←
          call (proc_event processor) (proc_call processor request p);
        match processor_response with
        | RResponse r => mret (Returned r)
        | RValue v =>
            if truthy v then
              match merge_context v response with
              | inr response' => run_processors request p rest response'
              | inl e =>
                  if is_type_or_value_error e
                  then raise (ValueError (processor_error processor v))
                  else raise e
              end
            else run_processors request p rest response
        end
  end.

(** The value [process_view] returns for either way out of the loop. *)
Definition exit_response (x : loop_exit) : HttpResponse :=
  match x with
  | Returned r => r
  | Completed response => response
  end.

Definition cp : string := "mezzanine.pages.context_processors.page".

Definition call_view (W : World) (view_func : view) : callable :=
  match view_func with
  | PageView => page_view W
  | OtherView _ body => body
  end.

(** [page.slug == slug and view_func != page_view and
     page.content_model != 'link'] *)
Definition use_page_view (p : Page) (slug' : string) (view_func : view) : bool :=
  bool_decide (slug p = slug') && negb (is_page_view view_func) &&
  negb (bool_decide (content_model p = "link")).

(** The [try: response = view_func(...)  except Http404: ...] block. *)
Definition obtain_response (W : World) (request : Request) (p : Page)
    (slug' : string) (view_func : view) (args : view_args)
    (kwargs : view_kwargs) : M HttpResponse :=
  try_except
    (call EvView (call_view W view_func request args kwargs))
    (fun e =>
       if is_http404 e then
         if use_page_view p slug' view_func
         then call (EvPageView slug') (page_view W request [PyStr slug'] kwargs)
         else raise e
       else raise e).

(** ["slug:%s" % page.slug] *)
Definition slug_key (p : Page) : string := "slug:" +:+ slug p.

(** [slug_processors + model_processors] *)
Definition page_processors (W : World) (p : Page) : list (Processor * bool) :=
  let model_processors := processors W (content_model p) in
  let slug_processors := processors W (slug_key p) in
  slug_processors ++ model_processors.

Definition login_url (W : World) (request : Request) : string :=
  let path := urlquote W (get_full_path request) in
  LOGIN_URL (settings W) +:+ "?" +:+ REDIRECT_FIELD_NAME W +:+ "=" +:+ path.

Definition process_view (W : World) (request : Request) (view_func : view)
    (args : view_args) (kwargs : view_kwargs) : M (option HttpResponse) :=
  if negb (bool_decide (cp ∈ TEMPLATE_CONTEXT_PROCESSORS (settings W)))
  then raise (ImproperlyConfigured
                (cp +:+ " is missing from settings.TEMPLATE_CONTEXT_PROCESSORS"))
  else
    slug' ← call (EvPathToSlug (path_info request))
                 (inr (path_to_slug W (path_info request)));
    pages ← call (EvPageLookup slug')
                 (inr (with_ascendants_for_slug W slug' (user request)));
    match pages with
    | [] => mret None
    | p :: _ =>
        request ← call (EvSetPage p) (inr (set_page request p));
        if login_required p && negb (is_authenticated (user request)) then
          mret (Some (redirect (login_url W request)))
        else
          response ← obtain_response W request p slug' view_func args kwargs;
          x ← run_processors request p (page_processors W p) response;
          mret (Some (exit_response x))
    end.

(** The request handler around the hook (Django's, not this module's):
    a [process_view] that returns [None] leaves the dispatched view to be
    called by the handler, any other value is the response. *)
Definition get_response (W : World) (request : Request) (view_func : view)
    (args : view_args) (kwargs : view_kwargs) : M HttpResponse :=
  r ← process_view W request view_func args kwargs;
  match r with
  | Some response => mret response
  | None => call EvView (call_view W view_func request args kwargs)
  end.

(** [PageMiddleware.__init__] *)
Definition init (conf : Settings) : exn + unit :=
  if negb (bool_decide ("mezzanine.pages" ∈ INSTALLED_APPS conf))
  then inl MiddlewareNotUsed
  else inr tt.

(** ** [PageMiddleware.installed] *)

(** Classes are named by their dotted path.  [ancestors c] is [c.__mro__]
    without [c] itself. *)
Record Classes := {
  ancestors : string -> list string;
  import_dotted_path : string -> exn + string;
}.

(** [issubclass(c, cls)] *)
Definition issubclass (C : Classes) (c cls : string) : bool :=
  bool_decide (cls ∈ c :: ancestors C c).

(** The [_installed] attributes set on class objects so far. *)
Abbreviation class_attrs := (gmap string bool).

Fixpoint lookup_mro (st : class_attrs) (mro : list string) : option bool :=
  match mro with
  | [] => None
  | c :: mro' =>
      match st !! c with
      | Some b => Some b
      | None => lookup_mro st mro'
      end
  end.

(** [cls._installed]; [None] stands for [AttributeError]. *)
Definition getattr_installed (C : Classes) (cls : string)
    (st : class_attrs) : option bool :=
  lookup_mro st (cls :: ancestors C cls).

(** The [for name in settings.MIDDLEWARE_CLASSES] loop, from
    [installed = False]. *)
Fixpoint scan_middleware (C : Classes) (cls : string)
    (names : list string) : M bool :=
  match names with
  | [] => mret false
  | name :: rest =>
      c ← call (EvImport name) (import_dotted_path C name);
      if issubclass C c cls then mret true
      else scan_middleware C cls rest
  end.

Definition middleware_name : string :=
  "mezzanine.pages.middleware.PageMiddleware".

(** [cls.installed()], from the class attributes [st]; the value comes with
    the attributes after the call.  An exception leaves them as they were. *)
Definition installed (C : Classes) (conf : Settings) (cls : string)
    (st : class_attrs) : M (bool * class_attrs) :=
  match getattr_installed C cls st with
  | Some b => mret (b, st)
  | None =>
      let installed := bool_decide (middleware_name ∈ MIDDLEWARE_CLASSES conf) in
      installed ←
        (if negb installed then scan_middleware C cls (MIDDLEWARE_CLASSES conf)
         else mret installed);
      mret (installed, <[cls := installed]> st)
  end.


(** ** Notions the statements use *)

(** [m], run after the calls [t]. *)
Definition after {A} (t : list event) (m : M A) : M A := (t ++ trace m, outcome m).

(** The calls [process_view] has made once the page is on the request. *)
Definition resolve_trace (W : World) (request : Request) (p : Page) : list event :=
  [EvPathToSlug (path_info request);
   EvPageLookup (path_to_slug W (path_info request)); EvSetPage p].

(** What the loop does after the processors [pre], when those neither
    returned nor raised. *)
Definition resume (request : Request) (p : Page)
    (post : list (Processor * bool)) (x : loop_exit) : M loop_exit :=
  match x with
  | Returned r => mret (Returned r)
  | Completed response => run_processors request p post response
  end.

(** The registered entries the loop calls for page [p]. *)
Definition applicable (p : Page) (ps : list (Processor * bool)) :
    list (Processor * bool) :=
  filter (fun pe => skipped p pe.2 = false) ps.

Definition calls_of (ps : list (Processor * bool)) : list event :=
  (fun pe => proc_event pe.1) <$> ps.

(** The registry with every entry registered with [exact_page] removed. *)
Definition without_exact_page (W : World) : World :=
  {| settings := settings W;
     REDIRECT_FIELD_NAME := REDIRECT_FIELD_NAME W;
     urlquote := urlquote W;
     path_to_slug := path_to_slug W;
     with_ascendants_for_slug := with_ascendants_for_slug W;
     page_view := page_view W;
     processors := fun key => filter (fun pe => pe.2 = false) (processors W key) |}.

(** ** A concrete site, to run the definitions on *)

Module Site.

Definition about_page : Page :=
  {| slug := "about"; login_required := false;
     content_model := "richtextpage"; is_current := true |}.

Definition blog_page : Page :=
  {| slug := "blog"; login_required := false;
     content_model := "richtextpage"; is_current := false |}.

Definition members_page : Page :=
  {| slug := "members"; login_required := true;
     content_model := "richtextpage"; is_current := true |}.

Definition anonymous : User := {| username := ""; is_authenticated := false |}.
Definition alice : User := {| username := "alice"; is_authenticated := true |}.

Definition get (path : string) (u : User) : Request :=
  {| path_info := "/" +:+ path +:+ "/"; get_full_path := "/" +:+ path +:+ "/";
     user := u; page := None |}.

Definition ctx (items : list (pykey * pyval)) : context := list_to_map items.

Definition rendered (items : list (pykey * pyval)) : HttpResponse :=
  TemplateResponse "pages/page.html" (Some (ctx items)).

(** Page processors returning, in turn: a dict, [None], the number 5,
    a response, the list [[0]]. *)
Definition author : Processor :=
  {| proc_module := "site.processors"; proc_name := "author";
     proc_call := fun _ _ =>
       inr (RValue (PyDict [(KStr "title", PyStr "Overridden");
                            (KStr "author", PyStr "alice")])) |}.

Definition nothing : Processor :=
  {| proc_module := "site.processors"; proc_name := "nothing";
     proc_call := fun _ _ => inr (RValue PyNone) |}.

Definition five : Processor :=
  {| proc_module := "site.processors"; proc_name := "five";
     proc_call := fun _ _ => inr (RValue (PyInt 5)) |}.

Definition form : Processor :=
  {| proc_module := "site.processors"; proc_name := "form";
     proc_call := fun _ _ => inr (RResponse (redirect "/thanks/")) |}.

Definition zeros : Processor :=
  {| proc_module := "site.processors"; proc_name := "zeros";
     proc_call := fun _ _ => inr (RValue (PyList [PyInt 0])) |}.

(** The slug is the path without its leading and trailing slash. *)
Definition strip_slashes (path : string) : string :=
  String.substring 1 (String.length path - 2) path.

Definition lookup (slug' : string) (u : User) : list Page :=
  if String.eqb slug' "about" then [about_page]
  else if String.eqb slug' "members" then [members_page]
  else if String.prefix "blog" slug' then [blog_page]
  else [].

Definition page_view_body : callable :=
  fun _ _ _ => inr (rendered [(KStr "title", PyStr "About")]).

Definition not_found : view :=
  OtherView "blog_post_detail" (fun _ _ _ => inl (Http404 "No post")).

Definition registry (key : string) : list (Processor * bool) :=
  if String.eqb key "slug:about" then [(nothing, false); (author, true)]
  else if String.eqb key "richtextpage" then [(form, true); (five, false)]
  else [].

Definition conf : Settings :=
  {| INSTALLED_APPS := ["mezzanine.pages"];
     MIDDLEWARE_CLASSES := ["mezzanine.pages.middleware.PageMiddleware"];
     TEMPLATE_CONTEXT_PROCESSORS := ["mezzanine.pages.context_processors.page"];
     LOGIN_URL := "/accounts/login/" |}.

Definition world : World :=
  {| settings := conf;
     REDIRECT_FIELD_NAME := "next";
     urlquote := fun s => s;
     path_to_slug := strip_slashes;
     with_ascendants_for_slug := lookup;
     page_view := page_view_body;
     processors := registry |}.

(** The same site without the page context processor. *)
Definition unconfigured : World :=
  {| settings :=
       {| INSTALLED_APPS := INSTALLED_APPS conf;
          MIDDLEWARE_CLASSES := MIDDLEWARE_CLASSES conf;
          TEMPLATE_CONTEXT_PROCESSORS := [];
          LOGIN_URL := LOGIN_URL conf |};
     REDIRECT_FIELD_NAME := "next";
     urlquote := fun s => s;
     path_to_slug := strip_slashes;
     with_ascendants_for_slug := lookup;
     page_view := page_view_body;
     processors := registry |}.

(** The settings after [MIDDLEWARE_CLASSES] has been emptied. *)
Definition no_middleware : Settings :=
  {| INSTALLED_APPS := INSTALLED_APPS conf;
     MIDDLEWARE_CLASSES := [];
     TEMPLATE_CONTEXT_PROCESSORS := TEMPLATE_CONTEXT_PROCESSORS conf;
     LOGIN_URL := LOGIN_URL conf |}.

(** The settings of a site that installs another subclass of the
    middleware, under its own dotted path. *)
Definition other_middleware : Settings :=
  {| INSTALLED_APPS := INSTALLED_APPS conf;
     MIDDLEWARE_CLASSES := ["site.middleware.OtherPages"];
     TEMPLATE_CONTEXT_PROCESSORS := TEMPLATE_CONTEXT_PROCESSORS conf;
     LOGIN_URL := LOGIN_URL conf |}.

(** Two subclasses of [PageMiddleware], unrelated to each other. *)
Definition classes : Classes :=
  {| ancestors := fun c =>
       if String.eqb c "site.middleware.SitePages" then [middleware_name; "object"]
       else if String.eqb c "site.middleware.OtherPages" then [middleware_name; "object"]
       else if String.eqb c middleware_name then ["object"]
       else [];
     import_dotted_path := fun name => inr name |}.

(** A view that fails with something other than [Http404]. *)
Definition broken : view :=
  OtherView "report" (fun _ _ _ => inl (OtherError "DatabaseError")).

(** A processor that raises, and one that binds ["author"] again. *)
Definition failing : Processor :=
  {| proc_module := "site.processors"; proc_name := "failing";
     proc_call := fun _ _ => inl TypeError |}.

Definition editor : Processor :=
  {| proc_module := "site.processors"; proc_name := "editor";
     proc_call := fun _ _ =>
       inr (RValue (PyDict [(KStr "author", PyStr "bob");
                            (KStr "editor", PyStr "bob")])) |}.

(** The same site with nothing in the processor registry. *)
Definition bare : World :=
  {| settings := conf;
     REDIRECT_FIELD_NAME := "next";
     urlquote := fun s => s;
     path_to_slug := strip_slashes;
     with_ascendants_for_slug := lookup;
     page_view := page_view_body;
     processors := fun _ => [] |}.

(** Classes of which one configured path cannot be imported. *)
Definition strict_classes : Classes :=
  {| ancestors := ancestors classes;
     import_dotted_path := fun name =>
       if String.eqb name "missing.Middleware" then inl (ImportError name)
       else inr name |}.

Definition subclass_then_missing : Settings :=
  {| INSTALLED_APPS := INSTALLED_APPS conf;
     MIDDLEWARE_CLASSES :=
       ["django.middleware.common.CommonMiddleware";
        "site.middleware.OtherPages"; "missing.Middleware"];
     TEMPLATE_CONTEXT_PROCESSORS := TEMPLATE_CONTEXT_PROCESSORS conf;
     LOGIN_URL := LOGIN_URL conf |}.

Definition missing_then_subclass : Settings :=
  {| INSTALLED_APPS := INSTALLED_APPS conf;
     MIDDLEWARE_CLASSES :=
       ["django.middleware.common.CommonMiddleware";
        "missing.Middleware"; "site.middleware.OtherPages"];
     TEMPLATE_CONTEXT_PROCESSORS := TEMPLATE_CONTEXT_PROCESSORS conf;
     LOGIN_URL := LOGIN_URL conf |}.

End Site.

(** ** The monad of calls *)

Section Calls.
Context {A B : Type}.

Lemma bind_value (t : list event) (a : A) (f : A -> M B) :
  ((t, inr a) : M A) ≫= f = (t ++ trace (f a), outcome (f a)).
Proof. unfold mbind, M_bind, trace, outcome. destruct (f a); reflexivity. Qed.

Lemma bind_raise (t : list event) (e : exn) (f : A -> M B) :
  ((t, inl e) : M A) ≫= f = (t, inl e).
Proof. reflexivity. Qed.

Lemma bind_ret (a : A) (f : A -> M B) : mret a ≫= f = f a.
Proof. unfold mret, M_ret, mbind, M_bind. destruct (f a); reflexivity. Qed.

Lemma bind_trace (m : M A) (f : A -> M B) :
  trace m `prefix_of` trace (m ≫= f).
Proof.
  destruct m as [t [e | a]]; [reflexivity |].
  rewrite bind_value. apply prefix_app_r. reflexivity.
Qed.
End Calls.

Lemma after_raise {A} (t t' : list event) (e : exn) :
  after t ((t', inl e) : M A) = (t ++ t', inl e).
Proof. reflexivity. Qed.

Lemma after_value {A} (t t' : list event) (a : A) :
  after t ((t', inr a) : M A) = (t ++ t', inr a).
Proof. reflexivity. Qed.

Lemma bind_after {A B} (t : list event) (a : A) (f : A -> M B) :
  ((t, inr a) : M A) ≫= f = after t (f a).
Proof. apply bind_value. Qed.

Lemma after_bind_any {A B} (t t' : list event) (m : exn + A) (f : A -> M B) :
  after t (((t', m) : M A) ≫= f) = ((t ++ t', m) : M A) ≫= f.
Proof.
  destruct m as [e | a]; [reflexivity |].
  rewrite !bind_value. unfold after, trace, outcome. cbn.
  rewrite app_assoc. reflexivity.
Qed.

Lemma after_bind {A B} (t t' : list event) (a : A) (f : A -> M B) :
  after t (((t', inr a) : M A) ≫= f) = ((t ++ t', inr a) : M A) ≫= f.
Proof. apply after_bind_any. Qed.

Lemma bind_ext {A B} (m : M A) (f g : A -> M B) :
  (forall a, f a = g a) -> m ≫= f = m ≫= g.
Proof.
  intros Hfg. destruct m as [t [e | a]]; [reflexivity |].
  rewrite !bind_value, Hfg. reflexivity.
Qed.

Lemma bind_assoc {A B C} (m : M A) (f : A -> M B) (g : B -> M C) :
  (m ≫= f) ≫= g = m ≫= (fun a => f a ≫= g).
Proof.
  destruct m as [t [e | a]]; [reflexivity |].
  unfold mbind, M_bind. destruct (f a) as [t1 [e1 | b]]; [reflexivity |].
  destruct (g b) as [t2 r]. rewrite app_assoc. reflexivity.
Qed.

(** ** The first steps of [process_view] *)

Section Resolve.
Variables (W : World) (request : Request) (view_func : view).
Variables (args : view_args) (kwargs : view_kwargs).

Hypothesis configured : cp ∈ TEMPLATE_CONTEXT_PROCESSORS (settings W).

Lemma process_view_no_page :
  with_ascendants_for_slug W (path_to_slug W (path_info request)) (user request) = [] ->
  process_view W request view_func args kwargs =
  ([EvPathToSlug (path_info request); EvPageLookup (path_to_slug W (path_info request))], inr None).
Proof.
  intros Hnone. unfold process_view.
  rewrite bool_decide_eq_true_2 by exact configured. cbn.
  rewrite Hnone. reflexivity.
Qed.

Variables (p : Page) (others : list Page).
Hypothesis resolved :
  with_ascendants_for_slug W (path_to_slug W (path_info request)) (user request) = p :: others.

Lemma process_view_resolved :
  process_view W request view_func args kwargs =
  ((resolve_trace W request p, inr (set_page request p)) : M Request) ≫=
  (fun request' =>
     if login_required p && negb (is_authenticated (user request')) then
       mret (Some (redirect (login_url W request')))
     else
       response ← obtain_response W request' p
                    (path_to_slug W (path_info request)) view_func args kwargs;
       x ← run_processors request' p (page_processors W p) response;
       mret (Some (exit_response x))).
Proof.
  unfold process_view.
  rewrite bool_decide_eq_true_2 by exact configured. cbn.
  rewrite resolved. cbn.
  destruct (login_required p && negb (is_authenticated (user request))); cbn.
  - reflexivity.
  - match goal with |- context [mbind ?f ?m] => destruct (mbind f m) as [t r] end.
    reflexivity.
Qed.
End Resolve.

Lemma use_page_view_spec (p : Page) (slug' : string) (view_func : view) :
  use_page_view p slug' view_func = true <->
  slug p = slug' /\ view_func <> PageView /\ content_model p <> "link".
Proof.
  unfold use_page_view.
  rewrite !andb_true_iff, !negb_true_iff, bool_decide_eq_true, bool_decide_eq_false.
  destruct view_func; cbn; intuition congruence.
Qed.

Lemma obtain_response_not_found (W : World) (request : Request) (p : Page)
    (slug' : string) (view_func : view) (args : view_args)
    (kwargs : view_kwargs) (msg : string) :
  call_view W view_func request args kwargs = inl (Http404 msg) ->
  obtain_response W request p slug' view_func args kwargs =
  if use_page_view p slug' view_func
  then ([EvView; EvPageView slug'], page_view W request [PyStr slug'] kwargs)
  else ([EvView], inl (Http404 msg)).
Proof.
  intros Hview. unfold obtain_response, try_except, call. rewrite Hview. cbn.
  destruct (use_page_view p slug' view_func); reflexivity.
Qed.

(** ** Configuration, lookup and the login gate *)

(** C7: when [mezzanine.pages.context_processors.page] is not among
    [settings.TEMPLATE_CONTEXT_PROCESSORS], [process_view] raises
    [ImproperlyConfigured] having made no call at all: no slug was derived,
    no page looked up, no view invoked. *)
Theorem process_view_improperly_configured (W : World) (request : Request)
    (view_func : view) (args : view_args) (kwargs : view_kwargs) :
  cp ∉ TEMPLATE_CONTEXT_PROCESSORS (settings W) ->
  process_view W request view_func args kwargs =
  ([], inl (ImproperlyConfigured
              (cp +:+ " is missing from settings.TEMPLATE_CONTEXT_PROCESSORS"))).
Proof.
  intros Hmissing. unfold process_view.
  rewrite bool_decide_eq_false_2 by exact Hmissing. reflexivity.
Qed.

(** C5: when the lookup for the derived slug finds no page, [process_view]
    returns [None] after the slug derivation and the lookup only (no page
    attribute set, no view call, no processor call), and the handler's
    response is then the dispatched view's own result on the unchanged
    request. *)
Theorem process_view_no_matching_page (W : World) (request : Request)
    (view_func : view) (args : view_args) (kwargs : view_kwargs) :
  cp ∈ TEMPLATE_CONTEXT_PROCESSORS (settings W) ->
  with_ascendants_for_slug W (path_to_slug W (path_info request)) (user request) = [] ->
  process_view W request view_func args kwargs =
    ([EvPathToSlug (path_info request);
      EvPageLookup (path_to_slug W (path_info request))], inr None) /\
  get_response W request view_func args kwargs =
    ([EvPathToSlug (path_info request);
      EvPageLookup (path_to_slug W (path_info request)); EvView],
     call_view W view_func request args kwargs).
Proof.
  intros Hcp Hnone.
  pose proof (process_view_no_page W request view_func args kwargs Hcp Hnone) as Hpv.
  split; [exact Hpv |].
  unfold get_response. rewrite Hpv, bind_value. reflexivity.
Qed.

(** C2: for a resolved page with [login_required] set and a user who is not
    authenticated, [process_view] returns a redirect to
    [LOGIN_URL?REDIRECT_FIELD_NAME=<quoted full path of the request>], and
    the dispatched view is not called. *)
Theorem process_view_login_redirect (W : World) (request : Request)
    (view_func : view) (args : view_args) (kwargs : view_kwargs)
    (p : Page) (others : list Page) :
  cp ∈ TEMPLATE_CONTEXT_PROCESSORS (settings W) ->
  with_ascendants_for_slug W (path_to_slug W (path_info request)) (user request)
    = p :: others ->
  login_required p = true ->
  is_authenticated (user request) = false ->
  process_view W request view_func args kwargs =
    (resolve_trace W request p,
     inr (Some (RedirectResponse
                  (LOGIN_URL (settings W) +:+ "?" +:+ REDIRECT_FIELD_NAME W +:+
                   "=" +:+ urlquote W (get_full_path request))))) /\
  EvView ∉ trace (process_view W request view_func args kwargs).
Proof.
  intros Hcp Hpage Hlogin Hanon.
  assert (process_view W request view_func args kwargs =
    (resolve_trace W request p,
     inr (Some (RedirectResponse
                  (LOGIN_URL (settings W) +:+ "?" +:+ REDIRECT_FIELD_NAME W +:+
                   "=" +:+ urlquote W (get_full_path request)))))) as Hpv.
  { rewrite (process_view_resolved W request view_func args kwargs Hcp p others Hpage).
    rewrite bind_value. cbn. rewrite Hlogin, Hanon. reflexivity. }
  split; [exact Hpv |].
  rewrite Hpv. unfold trace, resolve_trace. cbn.
  rewrite !elem_of_cons, elem_of_nil. intros [? | [? | [? | []]]]; discriminate.
Qed.

(** C1: for a resolved page past the login gate whose dispatched view raises
    [Http404], the page view is called with the slug exactly when the page's
    slug equals the derived slug, the dispatched view is not the page view
    and the content model is not ["link"]; its result then takes the place
    of the response.  In every other case the same [Http404] leaves
    [process_view]. *)
Theorem process_view_not_found (W : World) (request : Request)
    (view_func : view) (args : view_args) (kwargs : view_kwargs)
    (p : Page) (others : list Page) (msg : string) :
  cp ∈ TEMPLATE_CONTEXT_PROCESSORS (settings W) ->
  with_ascendants_for_slug W (path_to_slug W (path_info request)) (user request)
    = p :: others ->
  login_required p && negb (is_authenticated (user request)) = false ->
  call_view W view_func (set_page request p) args kwargs = inl (Http404 msg) ->
  (slug p = path_to_slug W (path_info request) /\ view_func <> PageView /\
   content_model p <> "link" ->
   process_view W request view_func args kwargs =
     ((resolve_trace W request p ++
       [EvView; EvPageView (path_to_slug W (path_info request))],
       page_view W (set_page request p)
         [PyStr (path_to_slug W (path_info request))] kwargs) : M HttpResponse)
     ≫= (fun response =>
           x ← run_processors (set_page request p) p (page_processors W p) response;
           mret (Some (exit_response x)))) /\
  (~ (slug p = path_to_slug W (path_info request) /\ view_func <> PageView /\
      content_model p <> "link") ->
   process_view W request view_func args kwargs =
     (resolve_trace W request p ++ [EvView], inl (Http404 msg))) /\
  (EvPageView (path_to_slug W (path_info request))
     ∈ trace (process_view W request view_func args kwargs) <->
   slug p = path_to_slug W (path_info request) /\ view_func <> PageView /\
   content_model p <> "link").
Proof.
  intros Hcp Hpage Hgate Hview.
  rewrite (process_view_resolved W request view_func args kwargs Hcp p others Hpage).
  rewrite bind_after. cbn [user set_page]. rewrite Hgate.
  rewrite (obtain_response_not_found _ _ _ _ _ _ _ _ Hview).
  rewrite <- use_page_view_spec.
  destruct (use_page_view p (path_to_slug W (path_info request)) view_func).
  - rewrite after_bind_any.
    split; [reflexivity |]. split; [intros []; reflexivity |].
    split; [reflexivity |]. intros _.
    eapply elem_of_prefix; [| apply bind_trace].
    unfold trace. cbn [fst]. rewrite elem_of_app, !elem_of_cons. auto.
  - rewrite bind_raise, after_raise.
    split; [discriminate |]. split; [reflexivity |].
    split; [| discriminate].
    unfold trace, resolve_trace. cbn. rewrite !elem_of_cons, elem_of_nil.
    intros [? | [? | [? | [? | []]]]]; discriminate.
Qed.

(** ** The processor loop *)

Section Loop.
Variables (request : Request) (p : Page).

Lemma run_processors_app (pre post : list (Processor * bool))
    (response : HttpResponse) :
  run_processors request p (pre ++ post) response =
  run_processors request p pre response ≫= resume request p post.
Proof.
  revert response.
  induction pre as [| [processor exact_page] pre IH]; intros response.
  - cbn [app run_processors]. rewrite bind_ret. reflexivity.
  - cbn [app run_processors].
    destruct (skipped p exact_page); [apply IH |].
    rewrite bind_assoc. unfold call.
    destruct (proc_call processor request p) as [e | [r | v]].
    + reflexivity.
    + rewrite !bind_value, bind_ret. reflexivity.
    + rewrite !bind_value.
      destruct (truthy v); [| rewrite IH; reflexivity].
      destruct (merge_context v response) as [e | response'].
      * destruct (is_type_or_value_error e); reflexivity.
      * rewrite IH. reflexivity.
Qed.

(** The loop from the point where the processors [pre] are done and the
    response has become [response1]. *)
Lemma run_processors_from (pre post : list (Processor * bool))
    (response response1 : HttpResponse) (t1 : list event) :
  run_processors request p pre response = (t1, inr (Completed response1)) ->
  run_processors request p (pre ++ post) response =
  after t1 (run_processors request p post response1).
Proof.
  intros Hpre. rewrite run_processors_app, Hpre, !bind_value. reflexivity.
Qed.

(** One turn of the loop for a processor that is not skipped. *)
Lemma run_processors_step (processor : Processor) (exact_page : bool)
    (post : list (Processor * bool)) (response : HttpResponse) :
  skipped p exact_page = false ->
  run_processors request p ((processor, exact_page) :: post) response =
  match proc_call processor request p with
  | inl e => ([proc_event processor], inl e)
  | inr (RResponse r) => ([proc_event processor], inr (Returned r))
  | inr (RValue v) =>
      if truthy v then
        match merge_context v response with
        | inr response' =>
            (([proc_event processor], inr response') : M HttpResponse)
              ≫= run_processors request p post
        | inl e =>
            ([proc_event processor],
             inl (if is_type_or_value_error e
                  then ValueError (processor_error processor v) else e))
        end
      else
        (([proc_event processor], inr response) : M HttpResponse)
          ≫= run_processors request p post
  end.
Proof.
  intros Hrun. cbn [run_processors]. rewrite Hrun. unfold call.
  destruct (proc_call processor request p) as [e | [r | v]]; try reflexivity.
  rewrite bind_value.
  destruct (truthy v); [| rewrite bind_value; reflexivity].
  destruct (merge_context v response) as [e | response'];
    [| rewrite bind_value; reflexivity].
  destruct (is_type_or_value_error e); reflexivity.
Qed.

End Loop.

(** ** Merging a mapping into the context *)

Lemma to_key_of_key (k : pykey) : to_key (of_key k) = Some k.
Proof. destruct k; reflexivity. Qed.

Lemma getitem_dict (d : list (pykey * pyval)) (k : pykey) :
  py_getitem (PyDict d) (of_key k) =
  match dict_get d k with Some x => inr x | None => inl KeyError end.
Proof. unfold py_getitem. rewrite to_key_of_key. reflexivity. Qed.

Lemma dict_get_keys (d : list (pykey * pyval)) (k : pykey) :
  k ∈ d.*1 <-> is_Some (dict_get d k).
Proof.
  induction d as [| [k' v] d IH]; cbn.
  - rewrite elem_of_nil. split; [intros [] | intros [x Hx]; discriminate].
  - rewrite elem_of_cons. destruct (decide (k' = k)) as [-> | Hne].
    + split; eauto.
    + rewrite <- IH. split; [intros [? | ?]; [congruence | assumption] | auto].
Qed.

Lemma dict_get_not_key (d : list (pykey * pyval)) (k : pykey) :
  k ∉ d.*1 -> dict_get d k = None.
Proof.
  intros Hk. destruct (dict_get d k) eqn:Hget; [| reflexivity].
  exfalso. apply Hk, dict_get_keys. eauto.
Qed.

(** The merge loop over keys that all belong to the mapping: no key of the
    context changes, and each visited key the context lacks gets the
    mapping's value. *)
Lemma merge_keys_dict (d : list (pykey * pyval)) (template : string)
    (ks : list pykey) :
  (forall k, k ∈ ks -> is_Some (dict_get d k)) ->
  forall c : context,
  exists c' : context,
    merge_keys (PyDict d) (of_key <$> ks) (TemplateResponse template (Some c)) =
      inr (TemplateResponse template (Some c')) /\
    forall k, c' !! k =
      match c !! k with
      | Some x => Some x
      | None => if decide (k ∈ ks) then dict_get d k else None
      end.
Proof.
  induction ks as [| k0 ks IH]; intros Hks c.
  - exists c. split; [reflexivity |].
    intros k. destruct (c !! k); [reflexivity |].
    destruct (decide (k ∈ [])) as [Hin | _]; [| reflexivity].
    apply elem_of_nil in Hin. destruct Hin.
  - assert (forall k, k ∈ ks -> is_Some (dict_get d k)) as Hks'
      by (intros k Hk; apply Hks; right; exact Hk).
    cbn [fmap list_fmap merge_keys get_context_data]. rewrite to_key_of_key.
    destruct (c !! k0) as [x0 |] eqn:Hc0.
    + destruct (IH Hks' c) as (c' & Hrun & Hc'). exists c'. split; [exact Hrun |].
      intros k. rewrite Hc'. destruct (c !! k) eqn:Hck; [reflexivity |].
      assert (k <> k0) as Hne by congruence.
      destruct (decide (k ∈ ks)), (decide (k ∈ k0 :: ks)) as [Hin | Hnin];
        try reflexivity.
      * exfalso. apply Hnin. right. assumption.
      * apply elem_of_cons in Hin as [? | ?]; [congruence | contradiction].
    + rewrite getitem_dict.
      destruct (Hks k0) as [x Hx]; [left |]. rewrite Hx. cbn [set_context_item].
      destruct (IH Hks' (<[k0 := x]> c)) as (c' & Hrun & Hc').
      exists c'. split; [exact Hrun |].
      intros k. rewrite Hc'. destruct (decide (k = k0)) as [-> | Hne].
      * rewrite lookup_insert_eq, Hc0.
        destruct (decide (k0 ∈ k0 :: ks)) as [_ | Hnin]; [congruence |].
        exfalso. apply Hnin. left.
      * rewrite lookup_insert_ne by congruence.
        destruct (c !! k); [reflexivity |].
        destruct (decide (k ∈ ks)), (decide (k ∈ k0 :: ks)) as [Hin | Hnin];
          try reflexivity.
        -- exfalso. apply Hnin. right. assumption.
        -- apply elem_of_cons in Hin as [? | ?]; [congruence | contradiction].
Qed.

Lemma merge_context_dict (d : list (pykey * pyval)) (template : string)
    (c : context) :
  exists c' : context,
    merge_context (PyDict d) (TemplateResponse template (Some c)) =
      inr (TemplateResponse template (Some c')) /\
    forall k, c' !! k =
      match c !! k with
      | Some x => Some x
      | None => dict_get d k
      end.
Proof.
  destruct (merge_keys_dict d template d.*1) with (c := c) as (c' & Hrun & Hc').
  { intros k. apply dict_get_keys. }
  exists c'. split.
  - unfold merge_context, py_iter. rewrite <- Hrun. f_equal.
    rewrite <- list_fmap_compose. reflexivity.
  - intros k. rewrite Hc'. destruct (c !! k); [reflexivity |].
    destruct (decide (k ∈ d.*1)); [reflexivity |].
    symmetry. apply dict_get_not_key. assumption.
Qed.

(** ** What the loop does with a processor's return value *)

(** C4: a processor that returns a mapping, reached with a response whose
    context is the dict [c], leaves the loop going with a context [c'] in
    which every key of [c] keeps its value, and every other key is bound
    exactly when the mapping binds it, to the mapping's value. *)
Theorem mapping_merged_without_overwriting (request : Request) (p : Page)
    (pre post : list (Processor * bool)) (processor : Processor)
    (exact_page : bool) (response : HttpResponse) (t1 : list event)
    (template : string) (c : context) (d : list (pykey * pyval)) :
  run_processors request p pre response =
    (t1, inr (Completed (TemplateResponse template (Some c)))) ->
  skipped p exact_page = false ->
  proc_call processor request p = inr (RValue (PyDict d)) ->
  exists c' : context,
    run_processors request p (pre ++ (processor, exact_page) :: post) response =
      ((t1 ++ [proc_event processor],
        inr (TemplateResponse template (Some c'))) : M HttpResponse)
      ≫= run_processors request p post /\
    (forall k x, c !! k = Some x -> c' !! k = Some x) /\
    (forall k, c !! k = None -> c' !! k = dict_get d k).
Proof.
  intros Hpre Hrun Hcall.
  rewrite (run_processors_from _ _ _ _ _ _ _ Hpre).
  rewrite (run_processors_step _ _ _ _ _ _ Hrun), Hcall.
  destruct (merge_context_dict d template c) as (c' & Hmerge & Hc').
  destruct (truthy (PyDict d)) eqn:Htruthy.
  - exists c'. rewrite Hmerge, after_bind. split; [reflexivity |].
    split; intros k; [intros x |]; intros Hk; rewrite Hc', Hk; reflexivity.
  - exists c. rewrite after_bind. split; [reflexivity |].
    split; [auto |]. intros k Hk. rewrite Hk.
    destruct d; [reflexivity | discriminate].
Qed.

(** C9: a processor whose return value is falsy raises nothing and changes
    nothing: the loop goes on to the next processor with the response it
    had. *)
Theorem falsy_result_skipped (request : Request) (p : Page)
    (pre post : list (Processor * bool)) (processor : Processor)
    (exact_page : bool) (response response1 : HttpResponse)
    (t1 : list event) (v : pyval) :
  run_processors request p pre response = (t1, inr (Completed response1)) ->
  skipped p exact_page = false ->
  proc_call processor request p = inr (RValue v) ->
  truthy v = false ->
  run_processors request p (pre ++ (processor, exact_page) :: post) response =
    ((t1 ++ [proc_event processor], inr response1) : M HttpResponse)
    ≫= run_processors request p post.
Proof.
  intros Hpre Hrun Hcall Hfalsy.
  rewrite (run_processors_from _ _ _ _ _ _ _ Hpre).
  rewrite (run_processors_step _ _ _ _ _ _ Hrun), Hcall, Hfalsy.
  apply after_bind.
Qed.

(** The values the loop passes over in silence. *)
Lemma falsy_values :
  truthy PyNone = false /\ truthy (PyDict []) = false /\
  truthy (PyBool false) = false /\ truthy (PyInt 0) = false /\
  truthy (PyStr "") = false /\ truthy (PyList []) = false.
Proof. repeat split. Qed.

(** C3, as the code has it: a return value that is truthy and cannot be
    iterated (a number other than zero, [True]) ends [process_view] with a
    [ValueError] whose message carries the processor's module and name,
    joined by a dot, and the type of the value; a falsy return value raises
    nothing, and the loop goes on with the response it had. *)
Theorem non_iterable_result_rejected (request : Request) (p : Page)
    (pre post : list (Processor * bool)) (processor : Processor)
    (exact_page : bool) (response response1 : HttpResponse)
    (t1 : list event) (v : pyval) :
  run_processors request p pre response = (t1, inr (Completed response1)) ->
  skipped p exact_page = false ->
  proc_call processor request p = inr (RValue v) ->
  (truthy v = true -> iterable v = false ->
   run_processors request p (pre ++ (processor, exact_page) :: post) response =
     (t1 ++ [proc_event processor],
      inl (ValueError
             ("The page processor " +:+
              (proc_module processor +:+ "." +:+ proc_name processor) +:+
              " returned " +:+ type_repr v +:+
              " but must return HttpResponse or dict.")))) /\
  (truthy v = false ->
   run_processors request p (pre ++ (processor, exact_page) :: post) response =
     ((t1 ++ [proc_event processor], inr response1) : M HttpResponse)
     ≫= run_processors request p post).
Proof.
  intros Hpre Hrun Hcall.
  rewrite (run_processors_from _ _ _ _ _ _ _ Hpre).
  rewrite (run_processors_step _ _ _ _ _ _ Hrun), Hcall.
  split.
  - intros Htruthy Hiter. rewrite Htruthy.
    unfold iterable in Hiter. unfold merge_context.
    destruct v; try discriminate; reflexivity.
  - intros Hfalsy. rewrite Hfalsy. apply after_bind.
Qed.

(** C3 as it is worded fails: [None] is neither a response nor a mapping,
    and a processor that returns it raises nothing. *)
Lemma non_mapping_result_not_always_rejected :
  ~ (forall (request : Request) (p : Page) (processor : Processor)
       (exact_page : bool) (rest : list (Processor * bool))
       (response : HttpResponse) (v : pyval),
       skipped p exact_page = false ->
       proc_call processor request p = inr (RValue v) ->
       (forall d, v <> PyDict d) ->
       exists msg,
         outcome (run_processors request p ((processor, exact_page) :: rest) response)
         = inl (ValueError msg)).
Proof.
  intros Hclaim.
  destruct (Hclaim (Site.get "about" Site.alice) Site.about_page Site.nothing
              false [] (Site.rendered []) PyNone) as [msg Hmsg];
    [reflexivity | reflexivity | discriminate |].
  vm_compute in Hmsg. discriminate.
Qed.

(** The duck-typed merge also lets a sequence through: the list [[0]]
    is merged as if it bound the key [0] to [0]. *)
Example list_result_merged :
  run_processors (Site.get "about" Site.alice) Site.about_page
    [(Site.zeros, false)] (Site.rendered []) =
  ([proc_event Site.zeros],
   inr (Completed (TemplateResponse "pages/page.html"
                     (Some (<[KInt 0 := PyInt 0]> ∅))))).
Proof. reflexivity. Qed.

(** ** Order of the processors, and the filter on [exact_page] *)

Lemma run_processors_trace (request : Request) (p : Page)
    (ps : list (Processor * bool)) (response : HttpResponse) :
  trace (run_processors request p ps response) `prefix_of`
  calls_of (applicable p ps).
Proof.
  revert response. unfold applicable, calls_of.
  induction ps as [| [processor exact_page] ps IH]; intros response.
  - reflexivity.
  - destruct (skipped p exact_page) eqn:Hskip.
    + rewrite filter_cons_False by (cbn; congruence).
      cbn [run_processors]. rewrite Hskip. apply IH.
    + rewrite filter_cons_True by exact Hskip.
      rewrite (run_processors_step _ _ _ _ _ _ Hskip). cbn [fmap list_fmap fst].
      destruct (proc_call processor request p) as [e | [r | v]];
        try (apply prefix_cons, prefix_nil).
      destruct (truthy v);
        [destruct (merge_context v response) as [e | response'] |];
        try (apply prefix_cons, prefix_nil);
        rewrite bind_value; apply prefix_cons, IH.
Qed.

Lemma run_processors_not_current (request : Request) (p : Page)
    (ps : list (Processor * bool)) (response : HttpResponse) :
  is_current p = false ->
  run_processors request p ps response =
  run_processors request p (filter (fun pe => pe.2 = false) ps) response.
Proof.
  intros Hcurrent. revert response.
  induction ps as [| [processor exact_page] ps IH]; intros response;
    [reflexivity |].
  assert (skipped p exact_page = exact_page) as Hskip
    by (unfold skipped; rewrite Hcurrent; apply andb_true_r).
  destruct exact_page.
  - rewrite filter_cons_False by (cbn; congruence).
    cbn [run_processors]. rewrite Hskip. apply IH.
  - rewrite filter_cons_True by reflexivity.
    rewrite !(run_processors_step _ _ _ _ _ _ Hskip).
    destruct (proc_call processor request p) as [e | [r | v]]; try reflexivity.
    destruct (truthy v);
      [destruct (merge_context v response) as [e | response'] |];
      try reflexivity; rewrite !bind_value, IH; reflexivity.
Qed.

(** C6: once a response is there, the calls to processors are an initial
    part of: the applicable entries under the page's slug key, then the
    applicable entries under its content model, each in registration order.
    When a processor returns a response, [process_view] returns that
    response and the trace ends with the call to that processor. *)
Theorem processors_in_order_until_response (W : World) (request : Request)
    (view_func : view) (args : view_args) (kwargs : view_kwargs)
    (p : Page) (others : list Page) (tv : list event) (response : HttpResponse) :
  cp ∈ TEMPLATE_CONTEXT_PROCESSORS (settings W) ->
  with_ascendants_for_slug W (path_to_slug W (path_info request)) (user request)
    = p :: others ->
  login_required p && negb (is_authenticated (user request)) = false ->
  obtain_response W (set_page request p) p (path_to_slug W (path_info request))
    view_func args kwargs = (tv, inr response) ->
  (exists ran : list event,
     trace (process_view W request view_func args kwargs) =
       resolve_trace W request p ++ tv ++ ran /\
     ran `prefix_of`
       calls_of (applicable p (processors W (slug_key p))) ++
       calls_of (applicable p (processors W (content_model p)))) /\
  (forall (pre post : list (Processor * bool)) (processor : Processor)
     (exact_page : bool) (t1 : list event) (response1 r : HttpResponse),
     processors W (slug_key p) ++ processors W (content_model p)
       = pre ++ (processor, exact_page) :: post ->
     run_processors (set_page request p) p pre response
       = (t1, inr (Completed response1)) ->
     skipped p exact_page = false ->
     proc_call processor (set_page request p) p = inr (RResponse r) ->
     process_view W request view_func args kwargs =
       (resolve_trace W request p ++ tv ++ t1 ++ [proc_event processor],
        inr (Some r))).
Proof.
  intros Hcp Hpage Hgate Hresponse.
  rewrite (process_view_resolved W request view_func args kwargs Hcp p others Hpage).
  rewrite bind_value. cbn [user set_page]. rewrite Hgate, Hresponse, bind_value.
  unfold page_processors. split.
  - exists (trace (run_processors (set_page request p) p
                     (processors W (slug_key p) ++ processors W (content_model p))
                     response)).
    split.
    + unfold trace. cbn [fst]. f_equal. f_equal.
      destruct (run_processors _ _ _ _) as [t [e | x]]; [reflexivity |].
      rewrite bind_value. cbn. apply app_nil_r.
    + unfold calls_of. rewrite <- fmap_app. unfold applicable.
      rewrite <- filter_app. apply run_processors_trace.
  - intros pre post processor exact_page t1 response1 r Hsplit Hpre Hskip Hcall.
    rewrite Hsplit, (run_processors_from _ _ _ _ _ _ _ Hpre).
    rewrite (run_processors_step _ _ _ _ _ _ Hskip), Hcall, after_value, bind_value.
    unfold trace, outcome. cbn. rewrite app_nil_r. reflexivity.
Qed.

(** C10: for a resolved page that is not the current one, [process_view]
    does what it would do if no entry registered with [exact_page] were in
    the registry, whatever the key it is registered under. *)
Theorem exact_page_entries_skipped (W : World) (request : Request)
    (view_func : view) (args : view_args) (kwargs : view_kwargs)
    (p : Page) (others : list Page) :
  with_ascendants_for_slug W (path_to_slug W (path_info request)) (user request)
    = p :: others ->
  is_current p = false ->
  process_view W request view_func args kwargs =
  process_view (without_exact_page W) request view_func args kwargs.
Proof.
  intros Hpage Hcurrent.
  destruct (decide (cp ∈ TEMPLATE_CONTEXT_PROCESSORS (settings W))) as [Hcp | Hcp].
  - rewrite (process_view_resolved W request view_func args kwargs Hcp p others Hpage).
    rewrite (process_view_resolved (without_exact_page W) request view_func
               args kwargs Hcp p others Hpage).
    apply bind_ext. intros request'.
    destruct (login_required p && negb (is_authenticated (user request')));
      [reflexivity |].
    apply bind_ext. intros response.
    rewrite (run_processors_not_current _ _ _ _ Hcurrent).
    unfold page_processors. cbn [without_exact_page processors].
    rewrite filter_app. reflexivity.
  - unfold process_view. cbn [without_exact_page settings].
    rewrite bool_decide_eq_false_2 by exact Hcp. reflexivity.
Qed.

(** ** The cache of [installed] *)

Lemma installed_sets_cache (C : Classes) (conf : Settings) (cls : string)
    (st st' : class_attrs) (t : list event) (b : bool) :
  installed C conf cls st = (t, inr (b, st')) ->
  getattr_installed C cls st' = Some b.
Proof.
  unfold installed.
  destruct (getattr_installed C cls st) as [b0 |] eqn:Hcache.
  - intros [= _ <- <-]. exact Hcache.
  - destruct (if negb _ then _ else _) as [t0 [e | b0]]; [discriminate |].
    rewrite bind_value. cbn. intros [= _ <- <-].
    unfold getattr_installed. cbn. rewrite lookup_insert_eq. reflexivity.
Qed.

Lemma installed_cached (C : Classes) (conf : Settings) (cls : string)
    (st : class_attrs) (b : bool) :
  getattr_installed C cls st = Some b ->
  installed C conf cls st = ([], inr (b, st)).
Proof. intros Hcache. unfold installed. rewrite Hcache. reflexivity. Qed.




(** The cache is an attribute of the class the method is called on: a
    subclass that is asked first keeps its own answer, and the base class
    computes again. *)
Example installed_on_subclass_then_base :
  exists st,
    installed Site.classes Site.other_middleware "site.middleware.SitePages" ∅ =
      ([EvImport "site.middleware.OtherPages"], inr (false, st)) /\
    outcome (installed Site.classes Site.other_middleware middleware_name st) =
      inr (true, <[middleware_name := true]> st).
Proof. eexists. split; reflexivity. Qed.

(** ** The theorems on the concrete site *)

Lemma improperly_configured_on_site :
  process_view Site.unconfigured (Site.get "about" Site.alice) PageView [] [] =
  ([], inl (ImproperlyConfigured
              "mezzanine.pages.context_processors.page is missing from settings.TEMPLATE_CONTEXT_PROCESSORS")).
Proof.
  apply (process_view_improperly_configured Site.unconfigured
           (Site.get "about" Site.alice) PageView [] []).
  apply not_elem_of_nil.
Defined.

Lemma no_matching_page_on_site :
  process_view Site.world (Site.get "nowhere" Site.alice) Site.not_found [] [] =
    ([EvPathToSlug "/nowhere/"; EvPageLookup "nowhere"], inr None) /\
  get_response Site.world (Site.get "nowhere" Site.alice) Site.not_found [] [] =
    ([EvPathToSlug "/nowhere/"; EvPageLookup "nowhere"; EvView],
     inl (Http404 "No post")).
Proof.
  apply (process_view_no_matching_page Site.world
           (Site.get "nowhere" Site.alice) Site.not_found [] []).
  - left.
  - reflexivity.
Defined.

Lemma login_redirect_on_site :
  process_view Site.world (Site.get "members" Site.anonymous) Site.not_found [] [] =
    ([EvPathToSlug "/members/"; EvPageLookup "members"; EvSetPage Site.members_page],
     inr (Some (RedirectResponse "/accounts/login/?next=/members/"))) /\
  EvView ∉ trace (process_view Site.world (Site.get "members" Site.anonymous)
                    Site.not_found [] []).
Proof.
  apply (process_view_login_redirect Site.world
           (Site.get "members" Site.anonymous) Site.not_found [] []
           Site.members_page []).
  - left.
  - reflexivity.
  - reflexivity.
  - reflexivity.
Defined.

Lemma not_found_on_site :
  EvPageView "about"
    ∈ trace (process_view Site.world (Site.get "about" Site.alice)
               Site.not_found [] []) /\
  process_view Site.world (Site.get "blog/x" Site.alice) Site.not_found [] [] =
    ([EvPathToSlug "/blog/x/"; EvPageLookup "blog/x"; EvSetPage Site.blog_page;
      EvView],
     inl (Http404 "No post")).
Proof.
  split.
  - apply (process_view_not_found Site.world (Site.get "about" Site.alice)
             Site.not_found [] [] Site.about_page [] "No post");
      [left | reflexivity | reflexivity | reflexivity |].
    repeat split; discriminate.
  - apply (process_view_not_found Site.world (Site.get "blog/x" Site.alice)
             Site.not_found [] [] Site.blog_page [] "No post");
      [left | reflexivity | reflexivity | reflexivity |].
    intros [Hslug _]. discriminate Hslug.
Defined.

Lemma mapping_merged_on_site :
  exists c' : context,
    run_processors (Site.get "about" Site.alice) Site.about_page
      ([(Site.nothing, false)] ++ (Site.author, true) :: [(Site.five, false)])
      (Site.rendered [(KStr "title", PyStr "About")]) =
      (([proc_event Site.nothing] ++ [proc_event Site.author],
        inr (TemplateResponse "pages/page.html" (Some c'))) : M HttpResponse)
      ≫= run_processors (Site.get "about" Site.alice) Site.about_page
           [(Site.five, false)] /\
    (forall k x, Site.ctx [(KStr "title", PyStr "About")] !! k = Some x ->
                 c' !! k = Some x) /\
    (forall k, Site.ctx [(KStr "title", PyStr "About")] !! k = None ->
               c' !! k = dict_get [(KStr "title", PyStr "Overridden");
                                   (KStr "author", PyStr "alice")] k).
Proof.
  apply (mapping_merged_without_overwriting (Site.get "about" Site.alice)
           Site.about_page [(Site.nothing, false)] [(Site.five, false)]
           Site.author true (Site.rendered [(KStr "title", PyStr "About")])
           [proc_event Site.nothing] "pages/page.html"
           (Site.ctx [(KStr "title", PyStr "About")])
           [(KStr "title", PyStr "Overridden"); (KStr "author", PyStr "alice")]);
    reflexivity.
Defined.

Lemma falsy_result_on_site :
  run_processors (Site.get "about" Site.alice) Site.about_page
    ([] ++ (Site.nothing, false) :: [(Site.author, true)])
    (Site.rendered [(KStr "title", PyStr "About")]) =
  (([] ++ [proc_event Site.nothing],
    inr (Site.rendered [(KStr "title", PyStr "About")])) : M HttpResponse)
  ≫= run_processors (Site.get "about" Site.alice) Site.about_page
       [(Site.author, true)].
Proof.
  apply (falsy_result_skipped (Site.get "about" Site.alice) Site.about_page
           [] [(Site.author, true)] Site.nothing false
           (Site.rendered [(KStr "title", PyStr "About")])
           (Site.rendered [(KStr "title", PyStr "About")]) [] PyNone);
    reflexivity.
Defined.

Lemma non_iterable_result_on_site :
  run_processors (Site.get "about" Site.alice) Site.about_page
    ([(Site.nothing, false)] ++ (Site.five, false) :: [(Site.author, true)])
    (Site.rendered []) =
  ([proc_event Site.nothing] ++ [proc_event Site.five],
   inl (ValueError
          "The page processor site.processors.five returned <class 'int'> but must return HttpResponse or dict.")) /\
  run_processors (Site.get "blog/x" Site.alice) Site.blog_page
    ([(Site.five, true)] ++ (Site.nothing, false) :: [(Site.author, true)])
    (Site.rendered []) =
  (([] ++ [proc_event Site.nothing], inr (Site.rendered [])) : M HttpResponse)
  ≫= run_processors (Site.get "blog/x" Site.alice) Site.blog_page
       [(Site.author, true)].
Proof.
  split.
  - refine (proj1 (non_iterable_result_rejected (Site.get "about" Site.alice)
                     Site.about_page [(Site.nothing, false)]
                     [(Site.author, true)] Site.five false (Site.rendered [])
                     (Site.rendered []) [proc_event Site.nothing] (PyInt 5)
                     _ _ _) _ _);
      reflexivity.
  - refine (proj2 (non_iterable_result_rejected (Site.get "blog/x" Site.alice)
                     Site.blog_page [(Site.five, true)]
                     [(Site.author, true)] Site.nothing false (Site.rendered [])
                     (Site.rendered []) [] PyNone _ _ _) _);
      reflexivity.
Defined.

Lemma processors_in_order_on_site :
  process_view Site.world (Site.get "about" Site.alice) PageView [] [] =
  ([EvPathToSlug "/about/"; EvPageLookup "about"; EvSetPage Site.about_page;
    EvView; proc_event Site.nothing; proc_event Site.author;
    proc_event Site.form],
   inr (Some (RedirectResponse "/thanks/"))).
Proof.
  refine (proj2 (processors_in_order_until_response Site.world
                   (Site.get "about" Site.alice) PageView [] []
                   Site.about_page [] [EvView]
                   (Site.rendered [(KStr "title", PyStr "About")])
                   _ _ _ _)
            [(Site.nothing, false); (Site.author, true)] [(Site.five, false)]
            Site.form true [proc_event Site.nothing; proc_event Site.author]
            (Site.rendered [(KStr "title", PyStr "About");
                            (KStr "author", PyStr "alice")])
            (RedirectResponse "/thanks/") _ _ _ _);
    try reflexivity.
  left.
Defined.

Lemma exact_page_entries_skipped_on_site :
  process_view Site.world (Site.get "blog/x" Site.alice) PageView [] [] =
  process_view (without_exact_page Site.world) (Site.get "blog/x" Site.alice)
    PageView [] [].
Proof.
  apply (exact_page_entries_skipped Site.world (Site.get "blog/x" Site.alice)
           PageView [] [] Site.blog_page []); reflexivity.
Defined.


(** ** More on the path through [process_view] *)

Lemma outcome_after {A} (t : list event) (m : M A) :
  outcome (after t m) = outcome m.
Proof. reflexivity. Qed.

Lemma trace_after {A} (t : list event) (m : M A) :
  trace (after t m) = t ++ trace m.
Proof. reflexivity. Qed.

Lemma outcome_bind {A B} (m : M A) (f : A -> M B) (b : B) :
  outcome (m ≫= f) = inr b ->
  exists a, outcome m = inr a /\ outcome (f a) = inr b.
Proof.
  destruct m as [t [e | a]]; [discriminate |].
  rewrite bind_value. intros Hb. exists a. split; [reflexivity | exact Hb].
Qed.

Lemma obtain_response_trace (W : World) (request : Request) (p : Page)
    (slug' : string) (view_func : view) (args : view_args)
    (kwargs : view_kwargs) :
  exists t, trace (obtain_response W request p slug' view_func args kwargs)
            = EvView :: t.
Proof.
  unfold obtain_response, try_except, call.
  destruct (call_view W view_func request args kwargs) as [e | r];
    [| exists []; reflexivity].
  destruct (is_http404 e);
    [destruct (use_page_view p slug' view_func) |]; eexists; reflexivity.
Qed.

Lemma obtain_response_other_error (W : World) (request : Request) (p : Page)
    (slug' : string) (view_func : view) (args : view_args)
    (kwargs : view_kwargs) (e : exn) :
  call_view W view_func request args kwargs = inl e ->
  is_http404 e = false ->
  obtain_response W request p slug' view_func args kwargs = ([EvView], inl e).
Proof.
  intros Hview Hother. unfold obtain_response, try_except, call.
  rewrite Hview, Hother. reflexivity.
Qed.

(** Only [Http404] is caught: any other exception of the dispatched view
    leaves [process_view] as it is, and the page view is not tried, whatever
    the page and the slug are. *)
Theorem view_error_propagates (W : World) (request : Request)
    (view_func : view) (args : view_args) (kwargs : view_kwargs)
    (p : Page) (others : list Page) (e : exn) :
  cp ∈ TEMPLATE_CONTEXT_PROCESSORS (settings W) ->
  with_ascendants_for_slug W (path_to_slug W (path_info request)) (user request)
    = p :: others ->
  login_required p && negb (is_authenticated (user request)) = false ->
  call_view W view_func (set_page request p) args kwargs = inl e ->
  is_http404 e = false ->
  process_view W request view_func args kwargs =
  (resolve_trace W request p ++ [EvView], inl e).
Proof.
  intros Hcp Hpage Hgate Hview Hother.
  rewrite (process_view_resolved W request view_func args kwargs Hcp p others Hpage).
  rewrite bind_after. cbn [user set_page]. rewrite Hgate.
  rewrite (obtain_response_other_error _ _ _ _ _ _ _ _ Hview Hother).
  reflexivity.
Qed.

(** [process_view] returns [None] in one case only: the context processor
    is configured and the lookup found no page. *)
Theorem process_view_none_iff (W : World) (request : Request)
    (view_func : view) (args : view_args) (kwargs : view_kwargs) :
  outcome (process_view W request view_func args kwargs) = inr None <->
  cp ∈ TEMPLATE_CONTEXT_PROCESSORS (settings W) /\
  with_ascendants_for_slug W (path_to_slug W (path_info request)) (user request) = [].
Proof.
  split.
  - destruct (decide (cp ∈ TEMPLATE_CONTEXT_PROCESSORS (settings W))) as [Hcp | Hcp].
    + destruct (with_ascendants_for_slug W (path_to_slug W (path_info request))
                  (user request)) as [| p others] eqn:Hpage; [auto |].
      rewrite (process_view_resolved W request view_func args kwargs Hcp p others Hpage).
      rewrite bind_after, outcome_after.
      destruct (login_required p && negb _); [discriminate |].
      intros Hnone. apply outcome_bind in Hnone as (response & _ & Hnone).
      apply outcome_bind in Hnone as (x & _ & Hnone). discriminate.
    + unfold process_view. rewrite bool_decide_eq_false_2 by exact Hcp.
      discriminate.
  - intros [Hcp Hnone].
    rewrite (process_view_no_page W request view_func args kwargs Hcp Hnone).
    reflexivity.
Qed.

(** The dispatched view is called exactly when a page was resolved and the
    login gate let the request through. *)
Theorem view_called_iff (W : World) (request : Request)
    (view_func : view) (args : view_args) (kwargs : view_kwargs) :
  EvView ∈ trace (process_view W request view_func args kwargs) <->
  cp ∈ TEMPLATE_CONTEXT_PROCESSORS (settings W) /\
  exists p others,
    with_ascendants_for_slug W (path_to_slug W (path_info request)) (user request)
      = p :: others /\
    login_required p && negb (is_authenticated (user request)) = false.
Proof.
  split.
  - destruct (decide (cp ∈ TEMPLATE_CONTEXT_PROCESSORS (settings W))) as [Hcp | Hcp].
    + destruct (with_ascendants_for_slug W (path_to_slug W (path_info request))
                  (user request)) as [| p others] eqn:Hpage.
      * rewrite (process_view_no_page W request view_func args kwargs Hcp Hpage).
        unfold trace. cbn. rewrite !elem_of_cons, elem_of_nil.
        intros [? | [? | []]]; discriminate.
      * rewrite (process_view_resolved W request view_func args kwargs Hcp p others Hpage).
        rewrite bind_after. cbn [user set_page].
        destruct (login_required p && negb _) eqn:Hgate; [| eauto 6].
        unfold trace, resolve_trace. cbn. rewrite !elem_of_cons, elem_of_nil.
        intros [? | [? | [? | []]]]; discriminate.
    + unfold process_view. rewrite bool_decide_eq_false_2 by exact Hcp.
      unfold trace. cbn. rewrite elem_of_nil. intros [].
  - intros (Hcp & p & others & Hpage & Hgate).
    rewrite (process_view_resolved W request view_func args kwargs Hcp p others Hpage).
    rewrite bind_after, trace_after. cbn [user set_page]. rewrite Hgate.
    destruct (obtain_response_trace W (set_page request p) p
                (path_to_slug W (path_info request)) view_func args kwargs)
      as [t Ht].
    apply elem_of_app. right.
    eapply elem_of_prefix; [| apply bind_trace]. rewrite Ht. left.
Qed.

(** Whatever happens afterwards (redirect, exception, response), a resolved
    page is the first one of the lookup and is put on the request right
    after the lookup: the trace starts with these three steps. *)
Theorem page_attached_first (W : World) (request : Request)
    (view_func : view) (args : view_args) (kwargs : view_kwargs)
    (p : Page) (others : list Page) :
  cp ∈ TEMPLATE_CONTEXT_PROCESSORS (settings W) ->
  with_ascendants_for_slug W (path_to_slug W (path_info request)) (user request)
    = p :: others ->
  [EvPathToSlug (path_info request);
   EvPageLookup (path_to_slug W (path_info request)); EvSetPage p]
    `prefix_of` trace (process_view W request view_func args kwargs).
Proof.
  intros Hcp Hpage.
  rewrite (process_view_resolved W request view_func args kwargs Hcp p others Hpage).
  rewrite bind_after, trace_after. apply prefix_app_r. reflexivity.
Qed.

(** ** More on the processor loop *)

Lemma run_processors_none_applicable (request : Request) (p : Page)
    (ps : list (Processor * bool)) (response : HttpResponse) :
  applicable p ps = [] ->
  run_processors request p ps response = ([], inr (Completed response)).
Proof.
  unfold applicable.
  induction ps as [| [processor exact_page] ps IH]; [reflexivity |].
  destruct (skipped p exact_page) eqn:Hskip.
  - rewrite filter_cons_False by (cbn; congruence).
    intros Hnone. cbn [run_processors]. rewrite Hskip. apply IH, Hnone.
  - rewrite filter_cons_True by exact Hskip. discriminate.
Qed.

(** With no processor to call for the page (none registered under either
    key, or all of them skipped), [process_view] returns the response it
    obtained from the view, as it is. *)
Theorem no_applicable_processor (W : World) (request : Request)
    (view_func : view) (args : view_args) (kwargs : view_kwargs)
    (p : Page) (others : list Page) (tv : list event) (response : HttpResponse) :
  cp ∈ TEMPLATE_CONTEXT_PROCESSORS (settings W) ->
  with_ascendants_for_slug W (path_to_slug W (path_info request)) (user request)
    = p :: others ->
  login_required p && negb (is_authenticated (user request)) = false ->
  obtain_response W (set_page request p) p (path_to_slug W (path_info request))
    view_func args kwargs = (tv, inr response) ->
  applicable p (processors W (slug_key p) ++ processors W (content_model p)) = [] ->
  process_view W request view_func args kwargs =
  (resolve_trace W request p ++ tv, inr (Some response)).
Proof.
  intros Hcp Hpage Hgate Hresponse Hnone.
  rewrite (process_view_resolved W request view_func args kwargs Hcp p others Hpage).
  rewrite bind_after. cbn [user set_page]. rewrite Hgate, Hresponse, bind_after.
  unfold page_processors. cbn zeta.
  rewrite (run_processors_none_applicable _ _ _ _ Hnone), bind_after.
  unfold after, trace, outcome. cbn. rewrite !app_nil_r. reflexivity.
Qed.

(** The call of a processor is outside the [try]: an exception a processor
    raises, a [TypeError] or [ValueError] included, leaves [process_view]
    unchanged, and no later processor is called. *)
Theorem processor_exception_propagates (request : Request) (p : Page)
    (pre post : list (Processor * bool)) (processor : Processor)
    (exact_page : bool) (response response1 : HttpResponse)
    (t1 : list event) (e : exn) :
  run_processors request p pre response = (t1, inr (Completed response1)) ->
  skipped p exact_page = false ->
  proc_call processor request p = inl e ->
  run_processors request p (pre ++ (processor, exact_page) :: post) response =
  (t1 ++ [proc_event processor], inl e).
Proof.
  intros Hpre Hrun Hcall.
  rewrite (run_processors_from _ _ _ _ _ _ _ Hpre).
  rewrite (run_processors_step _ _ _ _ _ _ Hrun), Hcall. reflexivity.
Qed.

(** A merge that succeeds on a template response with a dict context
    keeps the template and every binding of the context. *)
Lemma merge_keys_grows (v : pyval) (ks : list pyval) (template : string)
    (c : context) (response' : HttpResponse) :
  merge_keys v ks (TemplateResponse template (Some c)) = inr response' ->
  exists c' : context,
    response' = TemplateResponse template (Some c') /\ c ⊆ c'.
Proof.
  revert c. induction ks as [| k ks IH]; intros c.
  - intros [= <-]. exists c. split; reflexivity.
  - cbn [merge_keys get_context_data].
    destruct (to_key k) as [key |]; [| discriminate].
    destruct (c !! key) eqn:Hkey; [apply IH |].
    destruct (py_getitem v k) as [e | x]; [discriminate |].
    cbn [set_context_item]. intros Hrest.
    apply IH in Hrest as (c' & -> & Hsub).
    exists c'. split; [reflexivity |].
    transitivity (<[key := x]> c); [apply insert_subseteq, Hkey | exact Hsub].
Qed.

Lemma run_processors_grows (request : Request) (p : Page)
    (ps : list (Processor * bool)) (template : string) (c : context)
    (t : list event) (response' : HttpResponse) :
  run_processors request p ps (TemplateResponse template (Some c))
    = (t, inr (Completed response')) ->
  exists c' : context,
    response' = TemplateResponse template (Some c') /\ c ⊆ c'.
Proof.
  revert c t. induction ps as [| [processor exact_page] ps IH]; intros c t.
  - intros [= _ <-]. exists c. split; reflexivity.
  - destruct (skipped p exact_page) eqn:Hskip.
    + cbn [run_processors]. rewrite Hskip. apply IH.
    + rewrite (run_processors_step _ _ _ _ _ _ Hskip).
      destruct (proc_call processor request p) as [e | [r | v]];
        [discriminate | discriminate |].
      destruct (truthy v).
      * destruct (merge_context v _) as [e | response1] eqn:Hmerge;
          [discriminate |].
        unfold merge_context in Hmerge.
        destruct (py_iter v) as [e | ks]; [discriminate |].
        apply merge_keys_grows in Hmerge as (c1 & -> & Hsub1).
        rewrite bind_after. unfold after.
        destruct (run_processors request p ps _) as [t2 r2] eqn:Hrest.
        cbn. intros [= _ ->].
        apply IH in Hrest as (c' & -> & Hsub). exists c'.
        split; [reflexivity | transitivity c1; assumption].
      * rewrite bind_after. unfold after.
        destruct (run_processors request p ps _) as [t2 r2] eqn:Hrest.
        cbn. intros [= _ ->]. apply IH in Hrest. exact Hrest.
Qed.

(** Through the whole loop the context only grows: when the loop runs to
    its end on a template response with a dict context, the response that
    comes out has the same template, and every key the context had is still
    bound to the same value, whatever the processors returned. *)
Theorem context_entries_survive (request : Request) (p : Page)
    (ps : list (Processor * bool)) (template : string) (c : context)
    (t : list event) (response' : HttpResponse) :
  run_processors request p ps (TemplateResponse template (Some c))
    = (t, inr (Completed response')) ->
  exists c' : context,
    response' = TemplateResponse template (Some c') /\
    forall k x, c !! k = Some x -> c' !! k = Some x.
Proof.
  intros Hrun. apply run_processors_grows in Hrun as (c' & -> & Hsub).
  exists c'. split; [reflexivity |].
  intros k x Hk. eapply lookup_weaken; eassumption.
Qed.

(** When the loop runs to its end, it has called every applicable
    processor, once each, in the order of the list. *)
Theorem completed_loop_called_all (request : Request) (p : Page)
    (ps : list (Processor * bool)) (response response' : HttpResponse)
    (t : list event) :
  run_processors request p ps response = (t, inr (Completed response')) ->
  t = calls_of (applicable p ps).
Proof.
  revert response t. unfold applicable, calls_of.
  induction ps as [| [processor exact_page] ps IH]; intros response t.
  - intros [= <- _]. reflexivity.
  - destruct (skipped p exact_page) eqn:Hskip.
    + rewrite filter_cons_False by (cbn; congruence).
      cbn [run_processors]. rewrite Hskip. apply IH.
    + rewrite filter_cons_True by exact Hskip.
      rewrite (run_processors_step _ _ _ _ _ _ Hskip). cbn [fmap list_fmap fst].
      destruct (proc_call processor request p) as [e | [r | v]];
        [discriminate | discriminate |].
      destruct (truthy v);
        [destruct (merge_context v response) as [e | response1];
           [discriminate |] |];
        rewrite bind_after; unfold after;
        destruct (run_processors request p ps _) as [t2 r2] eqn:Hrest;
        cbn; intros [= <- ->]; apply IH in Hrest; rewrite Hrest; reflexivity.
Qed.

(** The first processor to bind a key wins: when a processor's mapping
    binds a key the context lacks, and the loop then runs to its end, that
    key has the value of this mapping in the final context, whatever the
    later processors return for it. *)
Theorem first_binding_wins (request : Request) (p : Page)
    (pre post : list (Processor * bool)) (processor : Processor)
    (exact_page : bool) (response response' : HttpResponse)
    (t1 t : list event) (template : string) (c : context)
    (d : list (pykey * pyval)) (k : pykey) (x : pyval) :
  run_processors request p pre response =
    (t1, inr (Completed (TemplateResponse template (Some c)))) ->
  skipped p exact_page = false ->
  proc_call processor request p = inr (RValue (PyDict d)) ->
  c !! k = None ->
  dict_get d k = Some x ->
  run_processors request p (pre ++ (processor, exact_page) :: post) response
    = (t, inr (Completed response')) ->
  exists c' : context,
    response' = TemplateResponse template (Some c') /\ c' !! k = Some x.
Proof.
  intros Hpre Hrun Hcall Hfree Hbound.
  rewrite (run_processors_from _ _ _ _ _ _ _ Hpre).
  rewrite (run_processors_step _ _ _ _ _ _ Hrun), Hcall.
  assert (truthy (PyDict d) = true) as -> by (destruct d; [discriminate | reflexivity]).
  destruct (merge_context_dict d template c) as (c1 & -> & Hc1).
  rewrite bind_after. unfold after.
  destruct (run_processors request p post _) as [t2 r2] eqn:Hrest.
  cbn. intros [= _ ->].
  apply run_processors_grows in Hrest as (c' & -> & Hsub).
  exists c'. split; [reflexivity |].
  eapply lookup_weaken; [| exact Hsub]. rewrite Hc1, Hfree. exact Hbound.
Qed.

(** Merging the same mapping a second time changes nothing, for instance
    when one processor is registered under both keys of a page. *)
Theorem merge_mapping_idempotent (d : list (pykey * pyval))
    (response response' : HttpResponse) :
  merge_context (PyDict d) response = inr response' ->
  merge_context (PyDict d) response' = inr response'.
Proof.
  destruct d as [| kv d]; [intros [= <-]; reflexivity |].
  destruct response as [status content | url | template [c |]];
    try discriminate.
  destruct (merge_context_dict (kv :: d) template c) as (c' & Hmerge & Hc').
  rewrite Hmerge. intros [= <-].
  destruct (merge_context_dict (kv :: d) template c') as (c'' & Hagain & Hc'').
  rewrite Hagain. do 3 f_equal. apply map_eq. intros k.
  rewrite Hc''. destruct (c' !! k) eqn:Hk; [reflexivity |].
  rewrite Hc' in Hk. destruct (c !! k); [discriminate | exact Hk].
Qed.

Lemma truthy_iterable_visits (v : pyval) :
  truthy v = true -> iterable v = true ->
  exists k ks, py_iter v = inr (k :: ks).
Proof.
  unfold iterable.
  destruct v as [| b | n | s | l | d]; try discriminate; cbn.
  - destruct s; [discriminate |]. intros _ _. unfold chars. cbn. eauto.
  - destruct l; [discriminate |]. eauto.
  - destruct d; [discriminate |]. cbn. eauto.
Qed.

(** A response without a [context_data] attribute (anything but a template
    response) cannot take a merge: a truthy iterable return value, a mapping
    included, ends [process_view] with the [AttributeError], which the
    [except] clause does not catch. *)
Theorem merge_into_plain_response_fails (request : Request) (p : Page)
    (pre post : list (Processor * bool)) (processor : Processor)
    (exact_page : bool) (response response1 : HttpResponse)
    (t1 : list event) (v : pyval) :
  run_processors request p pre response = (t1, inr (Completed response1)) ->
  skipped p exact_page = false ->
  proc_call processor request p = inr (RValue v) ->
  truthy v = true ->
  iterable v = true ->
  get_context_data response1 = inl (AttributeError "context_data") ->
  run_processors request p (pre ++ (processor, exact_page) :: post) response =
  (t1 ++ [proc_event processor], inl (AttributeError "context_data")).
Proof.
  intros Hpre Hrun Hcall Htruthy Hiter Hattr.
  rewrite (run_processors_from _ _ _ _ _ _ _ Hpre).
  rewrite (run_processors_step _ _ _ _ _ _ Hrun), Hcall, Htruthy.
  destruct (truthy_iterable_visits v Htruthy Hiter) as (k & ks & Hks).
  unfold merge_context. rewrite Hks. cbn [merge_keys]. rewrite Hattr.
  reflexivity.
Qed.

(** A template response rendered without a context has [context_data] set
    to [None]; the membership test then raises [TypeError], and the mapping
    a processor returned is reported with the [ValueError] of a malformed
    return value. *)
Theorem merge_into_missing_context_rejected (request : Request) (p : Page)
    (pre post : list (Processor * bool)) (processor : Processor)
    (exact_page : bool) (response : HttpResponse) (template : string)
    (t1 : list event) (v : pyval) :
  run_processors request p pre response =
    (t1, inr (Completed (TemplateResponse template None))) ->
  skipped p exact_page = false ->
  proc_call processor request p = inr (RValue v) ->
  truthy v = true ->
  iterable v = true ->
  run_processors request p (pre ++ (processor, exact_page) :: post) response =
  (t1 ++ [proc_event processor],
   inl (ValueError (processor_error processor v))).
Proof.
  intros Hpre Hrun Hcall Htruthy Hiter.
  rewrite (run_processors_from _ _ _ _ _ _ _ Hpre).
  rewrite (run_processors_step _ _ _ _ _ _ Hrun), Hcall, Htruthy.
  destruct (truthy_iterable_visits v Htruthy Hiter) as (k & ks & Hks).
  unfold merge_context. rewrite Hks. reflexivity.
Qed.

(** ** More on [installed] *)

Lemma scan_middleware_value (C : Classes) (cls : string) (names : list string) :
  (forall n, n ∈ names -> exists c, import_dotted_path C n = inr c) ->
  exists t b,
    scan_middleware C cls names = (t, inr b) /\
    (b = true <->
     exists n c, n ∈ names /\ import_dotted_path C n = inr c /\
                 issubclass C c cls = true).
Proof.
  induction names as [| n names IH]; intros Himport.
  - exists [], false. split; [reflexivity |].
    split; [discriminate |]. intros (n & c & Hn & _).
    apply elem_of_nil in Hn. destruct Hn.
  - destruct (Himport n) as [c Hc]; [left |].
    cbn [scan_middleware]. unfold call. rewrite Hc, bind_after.
    destruct (issubclass C c cls) eqn:Hsub.
    + exists [EvImport n], true. split; [reflexivity |].
      split; [| reflexivity]. intros _. exists n, c. repeat split; [left | | ];
        assumption.
    + destruct IH as (t & b & Hscan & Hb);
        [intros m Hm; apply Himport; right; exact Hm |].
      exists (EvImport n :: t), b. rewrite Hscan. split; [reflexivity |].
      rewrite Hb. split.
      * intros (m & c' & Hm & Hc' & Hsub'). exists m, c'.
        repeat split; [right | |]; assumption.
      * intros (m & c' & Hm & Hc' & Hsub').
        apply elem_of_cons in Hm as [-> | Hm]; [congruence | eauto].
Qed.

Lemma scan_middleware_to (C : Classes) (cls : string)
    (pre post : list string) (n : string) :
  (forall m, m ∈ pre ->
     exists c, import_dotted_path C m = inr c /\ issubclass C c cls = false) ->
  scan_middleware C cls (pre ++ n :: post) =
  after (EvImport <$> pre) (scan_middleware C cls (n :: post)).
Proof.
  induction pre as [| m pre IH]; intros Hpre.
  - unfold after, trace, outcome. cbn [app fmap list_fmap].
    destruct (scan_middleware C cls (n :: post)); reflexivity.
  - destruct (Hpre m) as (c & Hc & Hsub); [left |].
    cbn [app scan_middleware]. unfold call. rewrite Hc, bind_after, Hsub.
    rewrite IH by (intros m' Hm'; apply Hpre; right; exact Hm').
    reflexivity.
Qed.

(** The first call on a class with no cached value, when every configured
    middleware can be imported: it returns [True] exactly when the dotted
    path of [PageMiddleware] is configured or one of the configured classes
    is a subclass of the class, and stores that value on the class. *)
Theorem installed_first_call (C : Classes) (conf : Settings) (cls : string)
    (st : class_attrs) :
  getattr_installed C cls st = None ->
  (forall n, n ∈ MIDDLEWARE_CLASSES conf ->
     exists c, import_dotted_path C n = inr c) ->
  exists t b,
    installed C conf cls st = (t, inr (b, <[cls := b]> st)) /\
    (b = true <->
     middleware_name ∈ MIDDLEWARE_CLASSES conf \/
     exists n c, n ∈ MIDDLEWARE_CLASSES conf /\
                 import_dotted_path C n = inr c /\ issubclass C c cls = true).
Proof.
  intros Hcache Himport. unfold installed. rewrite Hcache.
  destruct (decide (middleware_name ∈ MIDDLEWARE_CLASSES conf)) as [Hin | Hnin].
  - rewrite bool_decide_eq_true_2 by exact Hin.
    exists [], true. split; [reflexivity |]. split; auto.
  - rewrite bool_decide_eq_false_2 by exact Hnin. cbn [negb].
    destruct (scan_middleware_value C cls _ Himport) as (t & b & Hscan & Hb).
    exists t, b. rewrite Hscan, bind_after. split.
    + unfold after, trace, outcome. cbn. rewrite app_nil_r. reflexivity.
    + rewrite Hb. split; [auto |]. intros [Hin | Hsub]; [contradiction | exact Hsub].
Qed.

(** The scan stops at the first configured class that is a subclass: the
    names after it are never imported, so a path among them that cannot be
    imported does no harm. *)
Theorem installed_stops_at_first_subclass (C : Classes) (conf : Settings)
    (cls : string) (st : class_attrs) (pre post : list string) (n c : string) :
  getattr_installed C cls st = None ->
  middleware_name ∉ MIDDLEWARE_CLASSES conf ->
  MIDDLEWARE_CLASSES conf = pre ++ n :: post ->
  (forall m, m ∈ pre ->
     exists c', import_dotted_path C m = inr c' /\ issubclass C c' cls = false) ->
  import_dotted_path C n = inr c ->
  issubclass C c cls = true ->
  installed C conf cls st =
  (EvImport <$> (pre ++ [n]), inr (true, <[cls := true]> st)).
Proof.
  intros Hcache Hnin Hsplit Hpre Hn Hsub. unfold installed.
  rewrite Hcache, bool_decide_eq_false_2 by exact Hnin. cbn [negb].
  rewrite Hsplit, (scan_middleware_to _ _ _ _ _ Hpre).
  cbn [scan_middleware]. unfold call. rewrite Hn, bind_after, Hsub.
  unfold after, trace, outcome. cbn. rewrite fmap_app, !app_nil_r. reflexivity.
Qed.

(** A configured path that cannot be imported, met before any subclass,
    ends [installed] with the import's exception. *)
Theorem installed_import_error (C : Classes) (conf : Settings)
    (cls : string) (st : class_attrs) (pre post : list string) (n : string)
    (e : exn) :
  getattr_installed C cls st = None ->
  middleware_name ∉ MIDDLEWARE_CLASSES conf ->
  MIDDLEWARE_CLASSES conf = pre ++ n :: post ->
  (forall m, m ∈ pre ->
     exists c', import_dotted_path C m = inr c' /\ issubclass C c' cls = false) ->
  import_dotted_path C n = inl e ->
  installed C conf cls st = (EvImport <$> (pre ++ [n]), inl e).
Proof.
  intros Hcache Hnin Hsplit Hpre Hn. unfold installed.
  rewrite Hcache, bool_decide_eq_false_2 by exact Hnin. cbn [negb].
  rewrite Hsplit, (scan_middleware_to _ _ _ _ _ Hpre).
  cbn [scan_middleware]. unfold call. rewrite Hn.
  unfold after, trace, outcome. cbn. rewrite fmap_app. reflexivity.
Qed.

(** A direct subclass without a value of its own reads the one its base
    class has cached: asked after the base class, it returns the same value
    under any settings, imports nothing and stores nothing. *)
Theorem installed_inherited_by_subclass (C : Classes) (conf : Settings)
    (base cls : string) (st st' : class_attrs) (t : list event) (b : bool) :
  installed C conf base st = (t, inr (b, st')) ->
  ancestors C cls = base :: ancestors C base ->
  st' !! cls = None ->
  forall conf', installed C conf' cls st' = ([], inr (b, st')).
Proof.
  intros Hbase Hmro Hown conf'.
  apply installed_sets_cache in Hbase.
  apply installed_cached. unfold getattr_installed in *.
  rewrite Hmro. cbn [lookup_mro] in *. rewrite Hown. exact Hbase.
Qed.

(** A call of [cls.installed()] never touches the attribute of another
    class. *)
Theorem installed_other_classes_untouched (C : Classes) (conf : Settings)
    (cls : string) (st st' : class_attrs) (t : list event) (b : bool) :
  installed C conf cls st = (t, inr (b, st')) ->
  forall c, c <> cls -> st' !! c = st !! c.
Proof.
  unfold installed.
  destruct (getattr_installed C cls st) as [b0 |].
  - intros [= _ _ <-]. reflexivity.
  - destruct (if negb _ then _ else _) as [t0 [e | b0]]; [discriminate |].
    rewrite bind_value. cbn. intros [= _ _ <-] c Hc.
    apply lookup_insert_ne. congruence.
Qed.

(** ** The further theorems on the concrete site *)

Lemma view_error_on_site :
  process_view Site.world (Site.get "about" Site.alice) Site.broken [] [] =
  ([EvPathToSlug "/about/"; EvPageLookup "about"; EvSetPage Site.about_page;
    EvView],
   inl (OtherError "DatabaseError")).
Proof.
  apply (view_error_propagates Site.world (Site.get "about" Site.alice)
           Site.broken [] [] Site.about_page [] (OtherError "DatabaseError"));
    [left | reflexivity | reflexivity | reflexivity | reflexivity].
Defined.

Lemma page_attached_on_site :
  [EvPathToSlug "/members/"; EvPageLookup "members"; EvSetPage Site.members_page]
    `prefix_of` trace (process_view Site.world (Site.get "members" Site.anonymous)
                         Site.broken [] []).
Proof.
  apply (page_attached_first Site.world (Site.get "members" Site.anonymous)
           Site.broken [] [] Site.members_page []); [left | reflexivity].
Defined.

Lemma no_applicable_processor_on_site :
  process_view Site.bare (Site.get "about" Site.alice) PageView [] [] =
  ([EvPathToSlug "/about/"; EvPageLookup "about"; EvSetPage Site.about_page;
    EvView],
   inr (Some (Site.rendered [(KStr "title", PyStr "About")]))).
Proof.
  apply (no_applicable_processor Site.bare (Site.get "about" Site.alice)
           PageView [] [] Site.about_page [] [EvView]
           (Site.rendered [(KStr "title", PyStr "About")]));
    [left | reflexivity | reflexivity | reflexivity | reflexivity].
Defined.

Lemma processor_exception_on_site :
  run_processors (Site.get "about" Site.alice) Site.about_page
    ([(Site.nothing, false)] ++ (Site.failing, false) :: [(Site.author, true)])
    (Site.rendered []) =
  ([proc_event Site.nothing] ++ [proc_event Site.failing], inl TypeError).
Proof.
  apply (processor_exception_propagates (Site.get "about" Site.alice)
           Site.about_page [(Site.nothing, false)] [(Site.author, true)]
           Site.failing false (Site.rendered []) (Site.rendered [])
           [proc_event Site.nothing] TypeError);
    reflexivity.
Defined.

Lemma context_entries_survive_on_site :
  exists c' : context,
    Site.rendered [(KStr "title", PyStr "About"); (KStr "author", PyStr "alice")]
      = TemplateResponse "pages/page.html" (Some c') /\
    forall k x, Site.ctx [(KStr "title", PyStr "About")] !! k = Some x ->
                c' !! k = Some x.
Proof.
  apply (context_entries_survive (Site.get "about" Site.alice) Site.about_page
           [(Site.nothing, false); (Site.author, true)] "pages/page.html"
           (Site.ctx [(KStr "title", PyStr "About")])
           [proc_event Site.nothing; proc_event Site.author]
           (Site.rendered [(KStr "title", PyStr "About");
                           (KStr "author", PyStr "alice")])).
  reflexivity.
Defined.

Lemma completed_loop_on_site :
  [proc_event Site.nothing; proc_event Site.author] =
  calls_of (applicable Site.blog_page
              [(Site.nothing, false); (Site.form, true); (Site.author, false)]).
Proof.
  apply (completed_loop_called_all (Site.get "blog/x" Site.alice) Site.blog_page
           [(Site.nothing, false); (Site.form, true); (Site.author, false)]
           (Site.rendered [(KStr "title", PyStr "About")])
           (Site.rendered [(KStr "title", PyStr "About");
                           (KStr "author", PyStr "alice")])).
  reflexivity.
Defined.

Lemma first_binding_wins_on_site :
  exists c' : context,
    Site.rendered [(KStr "title", PyStr "About"); (KStr "author", PyStr "alice");
                   (KStr "editor", PyStr "bob")]
      = TemplateResponse "pages/page.html" (Some c') /\
    c' !! KStr "author" = Some (PyStr "alice").
Proof.
  apply (first_binding_wins (Site.get "about" Site.alice) Site.about_page
           [(Site.nothing, false)] [(Site.editor, false)] Site.author true
           (Site.rendered [(KStr "title", PyStr "About")])
           (Site.rendered [(KStr "title", PyStr "About");
                           (KStr "author", PyStr "alice");
                           (KStr "editor", PyStr "bob")])
           [proc_event Site.nothing]
           [proc_event Site.nothing; proc_event Site.author;
            proc_event Site.editor]
           "pages/page.html" (Site.ctx [(KStr "title", PyStr "About")])
           [(KStr "title", PyStr "Overridden"); (KStr "author", PyStr "alice")]);
    reflexivity.
Defined.

Lemma merge_idempotent_on_site :
  merge_context
    (PyDict [(KStr "title", PyStr "Overridden"); (KStr "author", PyStr "alice")])
    (Site.rendered [(KStr "title", PyStr "About"); (KStr "author", PyStr "alice")])
  = inr (Site.rendered [(KStr "title", PyStr "About");
                        (KStr "author", PyStr "alice")]).
Proof.
  apply (merge_mapping_idempotent
           [(KStr "title", PyStr "Overridden"); (KStr "author", PyStr "alice")]
           (Site.rendered [(KStr "title", PyStr "About")])).
  reflexivity.
Defined.

Lemma merge_into_plain_response_on_site :
  run_processors (Site.get "about" Site.alice) Site.about_page
    ([(Site.nothing, false)] ++ (Site.author, true) :: [(Site.five, false)])
    (PlainResponse 200 "ok") =
  ([proc_event Site.nothing] ++ [proc_event Site.author],
   inl (AttributeError "context_data")).
Proof.
  apply (merge_into_plain_response_fails (Site.get "about" Site.alice)
           Site.about_page [(Site.nothing, false)] [(Site.five, false)]
           Site.author true (PlainResponse 200 "ok") (PlainResponse 200 "ok")
           [proc_event Site.nothing]
           (PyDict [(KStr "title", PyStr "Overridden");
                    (KStr "author", PyStr "alice")]));
    reflexivity.
Defined.

Lemma merge_into_missing_context_on_site :
  run_processors (Site.get "about" Site.alice) Site.about_page
    ([(Site.nothing, false)] ++ (Site.author, true) :: [(Site.five, false)])
    (TemplateResponse "pages/page.html" None) =
  ([proc_event Site.nothing] ++ [proc_event Site.author],
   inl (ValueError
          "The page processor site.processors.author returned <class 'dict'> but must return HttpResponse or dict.")).
Proof.
  apply (merge_into_missing_context_rejected (Site.get "about" Site.alice)
           Site.about_page [(Site.nothing, false)] [(Site.five, false)]
           Site.author true (TemplateResponse "pages/page.html" None)
           "pages/page.html" [proc_event Site.nothing]
           (PyDict [(KStr "title", PyStr "Overridden");
                    (KStr "author", PyStr "alice")]));
    reflexivity.
Defined.

Lemma installed_first_call_on_site :
  exists t b,
    installed Site.classes Site.other_middleware middleware_name ∅ =
      (t, inr (b, <[middleware_name := b]> ∅)) /\
    (b = true <->
     middleware_name ∈ MIDDLEWARE_CLASSES Site.other_middleware \/
     exists n c, n ∈ MIDDLEWARE_CLASSES Site.other_middleware /\
                 import_dotted_path Site.classes n = inr c /\
                 issubclass Site.classes c middleware_name = true).
Proof.
  apply (installed_first_call Site.classes Site.other_middleware
           middleware_name ∅).
  - reflexivity.
  - intros n _. exists n. reflexivity.
Defined.

Lemma installed_stops_on_site :
  installed Site.strict_classes Site.subclass_then_missing middleware_name ∅ =
  ([EvImport "django.middleware.common.CommonMiddleware";
    EvImport "site.middleware.OtherPages"],
   inr (true, <[middleware_name := true]> ∅)).
Proof.
  apply (installed_stops_at_first_subclass Site.strict_classes
           Site.subclass_then_missing middleware_name ∅
           ["django.middleware.common.CommonMiddleware"] ["missing.Middleware"]
           "site.middleware.OtherPages" "site.middleware.OtherPages").
  - reflexivity.
  - intros Hin. apply (bool_decide_eq_true_2 _) in Hin. discriminate Hin.
  - reflexivity.
  - intros m Hm. apply list_elem_of_singleton in Hm as ->.
    eexists. split; reflexivity.
  - reflexivity.
  - reflexivity.
Defined.

Lemma installed_import_error_on_site :
  installed Site.strict_classes Site.missing_then_subclass middleware_name ∅ =
  ([EvImport "django.middleware.common.CommonMiddleware";
    EvImport "missing.Middleware"],
   inl (ImportError "missing.Middleware")).
Proof.
  apply (installed_import_error Site.strict_classes
           Site.missing_then_subclass middleware_name ∅
           ["django.middleware.common.CommonMiddleware"]
           ["site.middleware.OtherPages"] "missing.Middleware"
           (ImportError "missing.Middleware")).
  - reflexivity.
  - intros Hin. apply (bool_decide_eq_true_2 _) in Hin. discriminate Hin.
  - reflexivity.
  - intros m Hm. apply list_elem_of_singleton in Hm as ->.
    eexists. split; reflexivity.
  - reflexivity.
Defined.

Lemma installed_inherited_on_site :
  installed Site.classes Site.no_middleware "site.middleware.SitePages"
    (<[middleware_name := true]> ∅) =
  ([], inr (true, <[middleware_name := true]> ∅)).
Proof.
  apply (installed_inherited_by_subclass Site.classes Site.conf
           middleware_name "site.middleware.SitePages" ∅
           (<[middleware_name := true]> ∅) [] true);
    reflexivity.
Defined.

Lemma installed_other_classes_on_site :
  (<[middleware_name := true]> (<["site.middleware.SitePages" := false]> ∅)
     : class_attrs) !! "site.middleware.SitePages" =
  (<["site.middleware.SitePages" := false]> ∅ : class_attrs)
    !! "site.middleware.SitePages".
Proof.
  apply (installed_other_classes_untouched Site.classes Site.conf
           middleware_name (<["site.middleware.SitePages" := false]> ∅)
           (<[middleware_name := true]> (<["site.middleware.SitePages" := false]> ∅))
           [] true).
  - reflexivity.
  - discriminate.
Defined.
